(** * Radlett Lodge web front end: data-access wrapper and session tracker

  A shallow embedding of
  - [src/lib/api.ts]   (the [api] object and, in the same listing, the
                        [cmsApi] object with its own helpers), and
  - [src/contexts/AuthContext.tsx] (the [AuthProvider] component),
  followed by the properties of the specification that concern them.

  Asynchronous functions are state-passing computations that return,
  throw, or stay suspended on a promise that never settles.  The outside
  world (environment variables, the clock, the hosted database, the auth
  provider, the HTTP endpoint) is a record of oracles. *)

From stdpp Require Import gmap strings list pretty.
From Stdlib Require Import Ascii String NArith ZArith Lia.

Local Open Scope string_scope.
Local Open Scope list_scope.

(* ===================================================================== *)
(** * The JavaScript notions the sources rely on *)
(* ===================================================================== *)

Module Js.

(** [new Error(message)]; provider errors are thrown as they are and
    carry a [message] as well. *)
Record Error := mkError { message : string }.

Inductive Settlement (T : Type) :=
| Fulfilled (value : T)
| Rejected (reason : Error).
Arguments Fulfilled {T} value.
Arguments Rejected {T} reason.

(** A promise is described by when and how it settles: [None] never
    settles, [Some (t, s)] settles as [s], [t] milliseconds after the
    moment the surrounding call started. *)
Definition Promise (T : Type) : Type := option (N * Settlement T).

(** [Promise.race([a, b])] of a thenable [a] that is taken up by the race
    and a promise [b] whose timer runs already: the first to settle
    decides.  The timer of [b] was set before [a] was taken up, so when
    both settle in the same millisecond it is [b] that has settled
    first. *)
Definition Promise_race {T} (a b : Promise T) : Promise T :=
  match a, b with
  | None, _ => b
  | Some _, None => a
  | Some (ta, _), Some (tb, _) => if (ta <? tb)%N then a else b
  end.

(** The delay [setTimeout] waits for: the delay asked for when it fits a
    signed 32-bit integer; a delay of 2^31 ms or more is not waited for,
    the callback runs after about a millisecond. *)
Definition setTimeout_delay (ms : N) : N :=
  if (ms <? 2147483648)%N then ms else 1%N.

(** [new Promise((_, reject) => setTimeout(() => reject(e), ms))] *)
Definition rejectAfter {T} (ms : N) (e : Error) : Promise T :=
  Some (setTimeout_delay ms, Rejected e).

(** What running an [async] function body gives. *)
Inductive Outcome (A : Type) :=
| Returned (a : A)
| Thrown (e : Error)
| Suspended.
Arguments Returned {A} a.
Arguments Thrown {A} e.
Arguments Suspended {A}.

(** An asynchronous computation over a state [S]. *)
Definition Async (S A : Type) : Type := S -> Outcome A * S.

Definition ret {S A} (a : A) : Async S A := fun s => (Returned a, s).

Definition bind {S A B} (c : Async S A) (k : A -> Async S B) : Async S B :=
  fun s =>
    match c s with
    | (Returned a, s') => k a s'
    | (Thrown e, s') => (Thrown e, s')
    | (Suspended, s') => (Suspended, s')
    end.

Definition throw {S A} (e : Error) : Async S A := fun s => (Thrown e, s).

(** [try { body } catch (e) { handler }] *)
Definition try_catch {S A} (body : Async S A) (handler : Error -> Async S A)
  : Async S A :=
  fun s =>
    match body s with
    | (Thrown e, s') => handler e s'
    | r => r
    end.

(** [try { body } finally { fin }] *)
Definition try_finally {S A} (body : Async S A) (fin : Async S unit)
  : Async S A :=
  fun s =>
    match body s with
    | (Suspended, s') => (Suspended, s')
    | (r, s') =>
        match fin s' with
        | (Returned _, s'') => (r, s'')
        | (Thrown e, s'') => (Thrown e, s'')
        | (Suspended, s'') => (Suspended, s'')
        end
    end.

(** [await p] *)
Definition await {S T} (p : Promise T) : Async S T :=
  fun s =>
    match p with
    | None => (Suspended, s)
    | Some (_, Fulfilled v) => (Returned v, s)
    | Some (_, Rejected e) => (Thrown e, s)
    end.

Definition modify {S} (f : S -> S) : Async S unit :=
  fun s => (Returned tt, f s).

Definition get {S} : Async S S := fun s => (Returned s, s).

(** [if (c) { body }] for a statement. *)
Definition when {S} (c : bool) (body : Async S unit) : Async S unit :=
  if c then body else ret tt.

(** [x === 'lit'] for a string that may be [undefined]. *)
Definition strict_eq (x : option string) (lit : string) : bool :=
  match x with
  | Some s => String.eqb s lit
  | None => false
  end.

(** Truthiness of a string that may be [undefined]. *)
Definition truthy_string (x : option string) : bool :=
  match x with
  | Some s => negb (String.eqb s "")
  | None => false
  end.

(** [s.split('T')[0]] *)
Fixpoint split_T_0 (s : string) : string :=
  match s with
  | EmptyString => EmptyString
  | String c rest =>
      if Ascii.eqb c "T"%char then EmptyString else String c (split_T_0 rest)
  end.

(** Strings are sequences of bytes, a character outside ASCII being its
    UTF-8 bytes.  The white space and line terminators removed by
    [String.prototype.trim]: in one byte U+0009 to U+000D and U+0020; in
    two bytes U+00A0; in three bytes U+1680, U+2000 to U+200A, U+2028,
    U+2029, U+202F, U+205F, U+3000 and U+FEFF. *)
Definition is_space (c : ascii) : bool :=
  let n := Ascii.N_of_ascii c in
  (n =? 32)%N || ((9 <=? n)%N && (n <=? 13)%N).

Definition is_space2 (c1 c2 : ascii) : bool :=
  (Ascii.N_of_ascii c1 =? 194)%N && (Ascii.N_of_ascii c2 =? 160)%N.

Definition is_space3 (c1 c2 c3 : ascii) : bool :=
  let n1 := Ascii.N_of_ascii c1 in
  let n2 := Ascii.N_of_ascii c2 in
  let n3 := Ascii.N_of_ascii c3 in
  ((n1 =? 225)%N && (n2 =? 154)%N && (n3 =? 128)%N)
  || ((n1 =? 226)%N && (n2 =? 128)%N
      && (((128 <=? n3)%N && (n3 <=? 138)%N)
          || (n3 =? 168)%N || (n3 =? 169)%N || (n3 =? 175)%N))
  || ((n1 =? 226)%N && (n2 =? 129)%N && (n3 =? 159)%N)
  || ((n1 =? 227)%N && (n2 =? 128)%N && (n3 =? 128)%N)
  || ((n1 =? 239)%N && (n2 =? 187)%N && (n3 =? 191)%N).

(** Drop the white space a string starts with; [two] and [three] tell the
    white-space characters of two and three bytes. *)
Fixpoint drop_space (two : ascii -> ascii -> bool)
    (three : ascii -> ascii -> ascii -> bool) (s : string) : string :=
  match s with
  | EmptyString => EmptyString
  | String c1 r1 =>
      if is_space c1 then drop_space two three r1
      else
        match r1 with
        | String c2 r2 =>
            if two c1 c2 then drop_space two three r2
            else
              match r2 with
              | String c3 r3 =>
                  if three c1 c2 c3 then drop_space two three r3 else s
              | EmptyString => s
              end
        | EmptyString => s
        end
  end.

Definition trim_start (s : string) : string :=
  drop_space is_space2 is_space3 s.

(** From the end, the bytes of a character come in reverse. *)
Definition trim_end (s : string) : string :=
  String.rev
    (drop_space (fun c2 c1 => is_space2 c1 c2)
       (fun c3 c2 c1 => is_space3 c1 c2 c3) (String.rev s)).

Definition trim (s : string) : string := trim_end (trim_start s).

End Js.

Export Js.

Declare Scope async_scope.
Delimit Scope async_scope with async.
Notation "x <- c ;; k" := (bind c (fun x => k))
  (at level 100, c at next level, right associativity) : async_scope.
Notation "c ;; k" := (bind c (fun _ => k))
  (at level 100, right associativity) : async_scope.
Local Open Scope async_scope.

(* ===================================================================== *)
(** * Application and client types ([src/types], [@supabase/supabase-js]) *)
(* ===================================================================== *)

Module Types.

Inductive Role := member | admin.

(** [MemberProfile], with the fields the sources read or write.  A field
    that an object literal leaves out or sets to [undefined] is [None]. *)
Record MemberProfile := {
  id : string;
  user_id : string;
  full_name : string;
  position : option string;
  role : Role;
  join_date : string;
  created_at : string;
  updated_at : string;
  status : string;
  email_verified : bool;
  registration_date : string;
  last_login : option string;
  needs_password_reset : option bool
}.

(** Column values of the flat content records.  A number is an integer
    that JavaScript holds exactly and prints in full (below 2^53 in
    absolute value); fractions and larger numbers are not part of the
    model. *)
Inductive Scalar :=
| SNull
| SBool (b : bool)
| SNum (n : Z)
| SStr (s : string).

(** An object: a member profile or a flat record keyed by column. *)
Inductive Obj :=
| OProfile (p : MemberProfile)
| ORecord (r : gmap string Scalar).

(** What a data operation hands back ([data as X] is no conversion). *)
Inductive Value :=
| VUndefined
| VScalar (s : Scalar)
| VRow (o : Obj)
| VArray (rows : list Obj).

Definition VNull : Value := VScalar SNull.

(** The provider's [User], as far as the sources look into it; [uid] is
    its [id] (a name the profile already has). *)
Record User := { uid : string; email : option string }.

Record Session := { user : User; access_token : string }.

Definition truthy (s : Scalar) : bool :=
  match s with
  | SNull => false
  | SBool b => b
  | SNum n => negb (n =? 0)%Z
  | SStr s => negb (String.eqb s "")
  end.

(** [String(x)], for the values of the model. *)
Definition to_string (s : Scalar) : string :=
  match s with
  | SNull => "null"
  | SBool true => "true"
  | SBool false => "false"
  | SNum n => pretty n
  | SStr s => s
  end.

End Types.

Export Types.

(* ===================================================================== *)
(** * The hosted-database client *)
(* ===================================================================== *)

Module Supabase.

(** One call of the query builder. *)
Inductive Step :=
| select (columns : option string)
| eq (column : string) (v : Scalar)
| gte (column : string) (v : Scalar)
| order (column : string) (ascending : bool)
| limit (n : N)
| insert (row : gmap string Scalar)
| update (row : gmap string Scalar)
| upsert (row : gmap string Scalar)
| delete
| single.

(** [supabase.from(table).step1(..).step2(..)...] *)
Record Query := { table : string; steps : list Step }.

Definition from (t : string) : Query := {| table := t; steps := [] |}.

Definition andThen (q : Query) (s : Step) : Query :=
  {| table := table q; steps := steps q ++ [s] |}.

Record PostgrestError := { pg_message : string }.

(** [{ data, error }] *)
Record Response := { data : Value; error : option PostgrestError }.

End Supabase.

Export Supabase.

Notation "q '.>' s" := (andThen q s) (at level 40, left associativity).

(* ===================================================================== *)
(** * The outside world of the data-access layer *)
(* ===================================================================== *)

Module World.

(** [import.meta.env] *)
Record Env := {
  VITE_SUPABASE_URL : option string;
  VITE_SUPABASE_ANON_KEY : option string
}.

(** The instant read by [Date.now()] and [new Date().toISOString()]. *)
Record Clock := { Date_now : N; toISOString : string }.

(** The argument of [fetch]; [body] is the object given to
    [JSON.stringify]. *)
Record Request := {
  url : string;
  method : string;
  authorization : string;
  content_type : string;
  body : gmap string Scalar
}.

Record HttpResponse := { ok : bool; json : Promise Value }.

Record Backend := {
  env : Env;
  clock : Clock;
  (** how the database answers a query handed to the client *)
  execute : Query -> Promise Response;
  (** [supabase.auth.getSession()], its [data.session] *)
  getSession : Promise (option Session);
  fetch : Request -> Promise HttpResponse
}.

(** What a call does to the outside, in order. *)
Inductive Event :=
| Sent (q : Query)
| AskedSession
| Fetched (r : Request)
| ConsoleError (label detail : string).

Definition Trace := list Event.

Definition isNetwork (e : Event) : bool :=
  match e with
  | ConsoleError _ _ => false
  | _ => true
  end.

(** The network accesses of a trace. *)
Definition network (tr : Trace) : Trace := List.filter isNetwork tr.

Definition console_error (label detail : string) : Async Trace unit :=
  modify (fun tr => tr ++ [ConsoleError label detail]).

(** The query builder is a thenable: the request leaves when the builder
    is awaited or raced, and the promise is its answer. *)
Definition issue (be : Backend) (q : Query) : Async Trace (Promise Response) :=
  fun tr => (Returned (execute be q), tr ++ [Sent q]).

(** An object literal. *)
Definition obj (fields : list (string * Scalar)) : gmap string Scalar :=
  list_to_map fields.

(** [data && data.length > 0 ? data[0] : null] on the answer of a select
    (an array of rows, or null). *)
Definition firstOrNull (data : Value) : Value :=
  match data with
  | VArray (row :: _) => VRow row
  | _ => VNull
  end.

End World.

Export World.

(* ===================================================================== *)
(** * [src/lib/api.ts]: the [api] object *)
(* ===================================================================== *)

Module Api.

(** Helper function to add timeout to promises (default 90000). *)
Definition withTimeout {T} (promise : Promise T) (timeoutMs : option N)
  : Promise T :=
  let timeoutMs := default 90000%N timeoutMs in
  Promise_race promise
    (rejectAfter timeoutMs
       (mkError ("Request timeout after " +:+ pretty timeoutMs +:+ "ms"))).

(** Helper to check if we should use demo mode. *)
Definition shouldUseDemoMode (e : Env) : bool :=
  negb (truthy_string (VITE_SUPABASE_URL e))
  || negb (truthy_string (VITE_SUPABASE_ANON_KEY e)).

(** The argument of [adminCreateMemberProfile]. *)
Record AdminProfile := {
  ap_user_id : string;
  ap_full_name : string;
  ap_position : option string;
  ap_role : Role
}.

Definition role_name (r : Role) : string :=
  match r with member => "member" | admin => "admin" end.

Definition adminProfile_row (p : AdminProfile) : gmap string Scalar :=
  let base := obj [("user_id", SStr (ap_user_id p));
                   ("full_name", SStr (ap_full_name p));
                   ("role", SStr (role_name (ap_role p)))] in
  match ap_position p with
  | Some pos => <["position" := SStr pos]> base
  | None => base
  end.

Section Operations.

Variable be : Backend.

Definition getMemberProfile (userId : string) : Async Trace Value :=
  try_catch
    (when (shouldUseDemoMode (env be))
       (throw (mkError "Demo mode - no database connection")) ;;
     let query := from "member_profiles" .> select (Some "*")
                    .> eq "user_id" (SStr userId) .> limit 1 in
     p <- issue be query ;;
     r <- await (withTimeout p (Some 60000%N)) ;;
     match error r with
     | Some error =>
         console_error "Error fetching member profile:" (pg_message error) ;;
         throw (mkError ("Failed to fetch profile: " +:+ pg_message error))
     | None => ret (firstOrNull (data r))
     end)
    (fun error =>
       console_error "API Error - getMemberProfile:" (message error) ;;
       throw error).

Definition createMemberProfile (userId fullName : string) : Async Trace Value :=
  try_catch
    (if shouldUseDemoMode (env be) then
       let demoProfile := {|
         id := "demo-" +:+ pretty (Date_now (clock be));
         user_id := userId;
         full_name := fullName;
         position := None;
         role := member;
         status := "pending";
         join_date := split_T_0 (toISOString (clock be));
         created_at := toISOString (clock be);
         updated_at := toISOString (clock be);
         registration_date := toISOString (clock be);
         email_verified := false;
         last_login := None;
         needs_password_reset := None |} in
       ret (VRow (OProfile demoProfile))
     else
       let query := from "member_profiles"
                      .> insert (obj [("user_id", SStr userId);
                                      ("full_name", SStr (trim fullName));
                                      ("role", SStr "member");
                                      ("status", SStr "pending");
                                      ("registration_date",
                                        SStr (toISOString (clock be)));
                                      ("email_verified", SBool false)])
                      .> select None .> single in
       p <- issue be query ;;
       r <- await (withTimeout p (Some 60000%N)) ;;
       match error r with
       | Some error =>
           console_error "Error creating member profile:" (pg_message error) ;;
           throw (mkError ("Failed to create profile: " +:+ pg_message error))
       | None => ret (data r)
       end)
    (fun error =>
       console_error "API Error - createMemberProfile:" (message error) ;;
       throw error).

Definition adminCreateMemberProfile (profile : AdminProfile)
  : Async Trace Value :=
  try_catch
    (let query := from "member_profiles"
                    .> insert (adminProfile_row profile)
                    .> select None .> single in
     p <- issue be query ;;
     r <- await (withTimeout p (Some 60000%N)) ;;
     match error r with
     | Some error =>
         console_error "Error creating member profile (admin):"
           (pg_message error) ;;
         throw (mkError ("Failed to create profile: " +:+ pg_message error))
     | None => ret (data r)
     end)
    (fun error =>
       console_error "API Error - adminCreateMemberProfile:" (message error) ;;
       throw error).

Definition getAllMembers : Async Trace Value :=
  try_catch
    (when (shouldUseDemoMode (env be))
       (throw (mkError "Demo mode - no database connection")) ;;
     let query := from "member_profiles" .> select (Some "*")
                    .> order "full_name" true in
     p <- issue be query ;;
     r <- await (withTimeout p (Some 90000%N)) ;;
     match error r with
     | Some error =>
         console_error "Error fetching all members:" (pg_message error) ;;
         throw (mkError ("Failed to fetch members: " +:+ pg_message error))
     | None => ret (data r)
     end)
    (fun error =>
       console_error "API Error - getAllMembers:" (message error) ;;
       throw error).

Definition updateMemberProfile (userId : string) (profile : gmap string Scalar)
  : Async Trace Value :=
  try_catch
    (let query := from "member_profiles" .> update profile
                    .> eq "user_id" (SStr userId) .> select None .> single in
     p <- issue be query ;;
     r <- await (withTimeout p (Some 60000%N)) ;;
     match error r with
     | Some error =>
         console_error "Error updating member profile:" (pg_message error) ;;
         throw (mkError ("Failed to update profile: " +:+ pg_message error))
     | None => ret (data r)
     end)
    (fun error =>
       console_error "API Error - updateMemberProfile:" (message error) ;;
       throw error).

Definition deleteMemberProfile (userId : string) : Async Trace Value :=
  try_catch
    (let query := from "member_profiles" .> delete
                    .> eq "user_id" (SStr userId) in
     p <- issue be query ;;
     r <- await (withTimeout p (Some 60000%N)) ;;
     match error r with
     | Some error =>
         console_error "Error deleting member profile:" (pg_message error) ;;
         throw (mkError ("Failed to delete profile: " +:+ pg_message error))
     | None => ret VUndefined
     end)
    (fun error =>
       console_error "API Error - deleteMemberProfile:" (message error) ;;
       throw error).

(** Secure user deletion via Edge Function. *)
Definition askSession : Async Trace (Promise (option Session)) :=
  fun tr => (Returned (getSession be), tr ++ [AskedSession]).

Definition doFetch (req : Request) : Async Trace (Promise HttpResponse) :=
  fun tr => (Returned (fetch be req), tr ++ [Fetched req]).

(** [errorData.error]: reading a property of [null] or [undefined] throws a
    TypeError (the message is the one of V8). *)
Definition errorProperty (errorData : Value) : Async Trace (option Scalar) :=
  match errorData with
  | VUndefined =>
      throw (mkError "Cannot read properties of undefined (reading 'error')")
  | VScalar SNull =>
      throw (mkError "Cannot read properties of null (reading 'error')")
  | VRow (ORecord r) => ret (r !! "error")
  | _ => ret None
  end.

Definition deleteUserAndProfile (userId : string) : Async Trace Value :=
  try_catch
    (ps <- askSession ;;
     session <- await ps ;;
     match session with
     | None => throw (mkError "Not authenticated")
     | Some session =>
         pr <- doFetch {|
           url := default "undefined" (VITE_SUPABASE_URL (env be))
                  +:+ "/functions/v1/delete-user";
           method := "POST";
           authorization := "Bearer " +:+ access_token session;
           content_type := "application/json";
           body := obj [("user_id", SStr userId)] |} ;;
         response <- await pr ;;
         if negb (ok response) then
           errorData <- await (json response) ;;
           e <- errorProperty errorData ;;
           throw (mkError (match e with
                           | Some x => if truthy x then to_string x
                                       else "Failed to delete user"
                           | None => "Failed to delete user"
                           end))
         else
           await (json response)
     end)
    (fun error =>
       console_error "API Error - deleteUserAndProfile:" (message error) ;;
       throw error).

(** Lodge Documents *)
Definition getLodgeDocuments (category : option string) : Async Trace Value :=
  try_catch
    (when (shouldUseDemoMode (env be))
       (throw (mkError "Demo mode - no database connection")) ;;
     let query := from "lodge_documents" .> select (Some "*")
                    .> order "created_at" false in
     let query := if truthy_string category
                  then query .> eq "category" (SStr (default "" category))
                  else query in
     p <- issue be query ;;
     r <- await (withTimeout p (Some 60000%N)) ;;
     match error r with
     | Some error =>
         console_error "Error fetching lodge documents:" (pg_message error) ;;
         throw (mkError ("Failed to fetch documents: " +:+ pg_message error))
     | None => ret (data r)
     end)
    (fun error =>
       console_error "API Error - getLodgeDocuments:" (message error) ;;
       throw error).

Definition createDocument (document : gmap string Scalar)
  : Async Trace Value :=
  try_catch
    (let query := from "lodge_documents" .> insert document
                    .> select None .> single in
     p <- issue be query ;;
     r <- await (withTimeout p (Some 60000%N)) ;;
     match error r with
     | Some error =>
         console_error "Error creating document:" (pg_message error) ;;
         throw (mkError ("Failed to create document: " +:+ pg_message error))
     | None => ret (data r)
     end)
    (fun error =>
       console_error "API Error - createDocument:" (message error) ;;
       throw error).

(** Meeting Minutes *)
Definition getMeetingMinutes : Async Trace Value :=
  try_catch
    (when (shouldUseDemoMode (env be))
       (throw (mkError "Demo mode - no database connection")) ;;
     let query := from "meeting_minutes" .> select (Some "*")
                    .> order "meeting_date" false in
     p <- issue be query ;;
     r <- await (withTimeout p (Some 60000%N)) ;;
     match error r with
     | Some error =>
         console_error "Error fetching meeting minutes:" (pg_message error) ;;
         throw (mkError ("Failed to fetch meeting minutes: "
                         +:+ pg_message error))
     | None => ret (data r)
     end)
    (fun error =>
       console_error "API Error - getMeetingMinutes:" (message error) ;;
       throw error).

Definition createMinutes (minutes : gmap string Scalar) : Async Trace Value :=
  try_catch
    (let query := from "meeting_minutes" .> insert minutes
                    .> select None .> single in
     p <- issue be query ;;
     r <- await (withTimeout p (Some 60000%N)) ;;
     match error r with
     | Some error =>
         console_error "Error creating meeting minutes:" (pg_message error) ;;
         throw (mkError ("Failed to create meeting minutes: "
                         +:+ pg_message error))
     | None => ret (data r)
     end)
    (fun error =>
       console_error "API Error - createMinutes:" (message error) ;;
       throw error).

End Operations.

(** A call of one operation of the [api] object, with its arguments. *)
Inductive Call :=
| GetMemberProfile (userId : string)
| CreateMemberProfile (userId fullName : string)
| AdminCreateMemberProfile (profile : AdminProfile)
| GetAllMembers
| UpdateMemberProfile (userId : string) (profile : gmap string Scalar)
| DeleteMemberProfile (userId : string)
| DeleteUserAndProfile (userId : string)
| GetLodgeDocuments (category : option string)
| CreateDocument (document : gmap string Scalar)
| GetMeetingMinutes
| CreateMinutes (minutes : gmap string Scalar).

Definition invoke (be : Backend) (c : Call) : Async Trace Value :=
  match c with
  | GetMemberProfile userId => getMemberProfile be userId
  | CreateMemberProfile userId fullName => createMemberProfile be userId fullName
  | AdminCreateMemberProfile profile => adminCreateMemberProfile be profile
  | GetAllMembers => getAllMembers be
  | UpdateMemberProfile userId profile => updateMemberProfile be userId profile
  | DeleteMemberProfile userId => deleteMemberProfile be userId
  | DeleteUserAndProfile userId => deleteUserAndProfile be userId
  | GetLodgeDocuments category => getLodgeDocuments be category
  | CreateDocument document => createDocument be document
  | GetMeetingMinutes => getMeetingMinutes be
  | CreateMinutes minutes => createMinutes be minutes
  end.

End Api.

(* ===================================================================== *)
(** * [src/lib/api.ts], second listing: the [cmsApi] object *)
(* ===================================================================== *)

Module CmsApi.

(** Helper function to add timeout to promises (default 60000). *)
Definition withTimeout {T} (promise : Promise T) (timeoutMs : option N)
  : Promise T :=
  let timeoutMs := default 60000%N timeoutMs in
  Promise_race promise
    (rejectAfter timeoutMs
       (mkError ("Request timeout after " +:+ pretty timeoutMs +:+ "ms"))).

(** Helper to check if we should use demo mode. *)
Definition shouldUseDemoMode (e : Env) : bool :=
  negb (truthy_string (VITE_SUPABASE_URL e))
  || negb (truthy_string (VITE_SUPABASE_ANON_KEY e)).

(** [x || dflt] for a property that may be missing. *)
Definition or_else (x : option Scalar) (dflt : Scalar) : Scalar :=
  match x with
  | Some v => if truthy v then v else dflt
  | None => dflt
  end.

Section Operations.

Variable be : Backend.

(** Events *)
Definition getEvents : Async Trace Value :=
  try_catch
    (when (shouldUseDemoMode (env be))
       (throw (mkError "Demo mode - no database connection")) ;;
     let query := from "events" .> select (Some "*")
                    .> order "event_date" true in
     p <- issue be query ;;
     r <- await (withTimeout p None) ;;
     match error r with
     | Some error =>
         console_error "Error fetching events:" (pg_message error) ;;
         throw (mkError ("Failed to fetch events: "
                         +:+ pg_message error))
     | None => ret (data r)
     end)
    (fun error =>
       console_error "CMS API Error - getEvents:" (message error) ;;
       throw error).

Definition getNextUpcomingEvent : Async Trace Value :=
  try_catch
    (when (shouldUseDemoMode (env be))
       (throw (mkError "Demo mode - no database connection")) ;;
     let now := toISOString (clock be) in
     let query := from "events" .> select (Some "*")
                    .> eq "is_past_event" (SBool false)
                    .> gte "event_date" (SStr now)
                    .> order "event_date" true
                    .> limit 1 in
     p <- issue be query ;;
     r <- await (withTimeout p None) ;;
     match error r with
     | Some error =>
         console_error "Error fetching next upcoming event:" (pg_message error) ;;
         throw (mkError ("Failed to fetch next upcoming event: "
                         +:+ pg_message error))
     | None => ret (firstOrNull (data r))
     end)
    (fun error =>
       console_error "CMS API Error - getNextUpcomingEvent:" (message error) ;;
       throw error).

Definition createEvent (event : gmap string Scalar) : Async Trace Value :=
  try_catch
    (when (shouldUseDemoMode (env be))
       (throw (mkError "Demo mode - no database connection")) ;;
     let query := from "events" .> insert event
                    .> select None
                    .> single in
     p <- issue be query ;;
     r <- await (withTimeout p None) ;;
     match error r with
     | Some error =>
         console_error "Error creating event:" (pg_message error) ;;
         throw (mkError ("Failed to create event: "
                         +:+ pg_message error))
     | None => ret (data r)
     end)
    (fun error =>
       console_error "CMS API Error - createEvent:" (message error) ;;
       throw error).

Definition updateEvent (id : string) (event : gmap string Scalar) : Async Trace Value :=
  try_catch
    (when (shouldUseDemoMode (env be))
       (throw (mkError "Demo mode - no database connection")) ;;
     let query := from "events" .> update event
                    .> eq "id" (SStr id)
                    .> select None
                    .> single in
     p <- issue be query ;;
     r <- await (withTimeout p None) ;;
     match error r with
     | Some error =>
         console_error "Error updating event:" (pg_message error) ;;
         throw (mkError ("Failed to update event: "
                         +:+ pg_message error))
     | None => ret (data r)
     end)
    (fun error =>
       console_error "CMS API Error - updateEvent:" (message error) ;;
       throw error).

Definition deleteEvent (id : string) : Async Trace Value :=
  try_catch
    (when (shouldUseDemoMode (env be))
       (throw (mkError "Demo mode - no database connection")) ;;
     let query := from "events" .> delete
                    .> eq "id" (SStr id) in
     p <- issue be query ;;
     r <- await (withTimeout p None) ;;
     match error r with
     | Some error =>
         console_error "Error deleting event:" (pg_message error) ;;
         throw (mkError ("Failed to delete event: "
                         +:+ pg_message error))
     | None => ret (VUndefined)
     end)
    (fun error =>
       console_error "CMS API Error - deleteEvent:" (message error) ;;
       throw error).

(** News Articles *)
Definition getNewsArticles : Async Trace Value :=
  try_catch
    (when (shouldUseDemoMode (env be))
       (throw (mkError "Demo mode - no database connection")) ;;
     let query := from "news_articles" .> select (Some "*")
                    .> order "publish_date" false in
     p <- issue be query ;;
     r <- await (withTimeout p None) ;;
     match error r with
     | Some error =>
         console_error "Error fetching news articles:" (pg_message error) ;;
         throw (mkError ("Failed to fetch news articles: "
                         +:+ pg_message error))
     | None => ret (data r)
     end)
    (fun error =>
       console_error "CMS API Error - getNewsArticles:" (message error) ;;
       throw error).

Definition createNewsArticle (article : gmap string Scalar) : Async Trace Value :=
  try_catch
    (when (shouldUseDemoMode (env be))
       (throw (mkError "Demo mode - no database connection")) ;;
     let formattedArticle :=
       <["publish_date" := or_else (article !! "publish_date")
                             (SStr (split_T_0 (toISOString (clock be))))]>
         article in
     let query := from "news_articles" .> insert formattedArticle
                    .> select None
                    .> single in
     p <- issue be query ;;
     r <- await (withTimeout p None) ;;
     match error r with
     | Some error =>
         console_error "Error creating news article:" (pg_message error) ;;
         throw (mkError ("Failed to create news article: "
                         +:+ pg_message error))
     | None => ret (data r)
     end)
    (fun error =>
       console_error "CMS API Error - createNewsArticle:" (message error) ;;
       throw error).

Definition updateNewsArticle (id : string) (article : gmap string Scalar) : Async Trace Value :=
  try_catch
    (when (shouldUseDemoMode (env be))
       (throw (mkError "Demo mode - no database connection")) ;;
     let query := from "news_articles" .> update article
                    .> eq "id" (SStr id)
                    .> select None
                    .> single in
     p <- issue be query ;;
     r <- await (withTimeout p None) ;;
     match error r with
     | Some error =>
         console_error "Error updating news article:" (pg_message error) ;;
         throw (mkError ("Failed to update news article: "
                         +:+ pg_message error))
     | None => ret (data r)
     end)
    (fun error =>
       console_error "CMS API Error - updateNewsArticle:" (message error) ;;
       throw error).

Definition deleteNewsArticle (id : string) : Async Trace Value :=
  try_catch
    (when (shouldUseDemoMode (env be))
       (throw (mkError "Demo mode - no database connection")) ;;
     let query := from "news_articles" .> delete
                    .> eq "id" (SStr id) in
     p <- issue be query ;;
     r <- await (withTimeout p None) ;;
     match error r with
     | Some error =>
         console_error "Error deleting news article:" (pg_message error) ;;
         throw (mkError ("Failed to delete news article: "
                         +:+ pg_message error))
     | None => ret (VUndefined)
     end)
    (fun error =>
       console_error "CMS API Error - deleteNewsArticle:" (message error) ;;
       throw error).

(** Officers *)
Definition getOfficers : Async Trace Value :=
  try_catch
    (when (shouldUseDemoMode (env be))
       (throw (mkError "Demo mode - no database connection")) ;;
     let query := from "officers" .> select (Some "*")
                    .> eq "is_active" (SBool true)
                    .> order "sort_order" true in
     p <- issue be query ;;
     r <- await (withTimeout p None) ;;
     match error r with
     | Some error =>
         console_error "Error fetching officers:" (pg_message error) ;;
         throw (mkError ("Failed to fetch officers: "
                         +:+ pg_message error))
     | None => ret (data r)
     end)
    (fun error =>
       console_error "CMS API Error - getOfficers:" (message error) ;;
       throw error).

Definition createOfficer (officer : gmap string Scalar) : Async Trace Value :=
  try_catch
    (when (shouldUseDemoMode (env be))
       (throw (mkError "Demo mode - no database connection")) ;;
     let query := from "officers" .> insert officer
                    .> select None
                    .> single in
     p <- issue be query ;;
     r <- await (withTimeout p None) ;;
     match error r with
     | Some error =>
         console_error "Error creating officer:" (pg_message error) ;;
         throw (mkError ("Failed to create officer: "
                         +:+ pg_message error))
     | None => ret (data r)
     end)
    (fun error =>
       console_error "CMS API Error - createOfficer:" (message error) ;;
       throw error).

Definition updateOfficer (id : string) (officer : gmap string Scalar) : Async Trace Value :=
  try_catch
    (when (shouldUseDemoMode (env be))
       (throw (mkError "Demo mode - no database connection")) ;;
     let query := from "officers" .> update officer
                    .> eq "id" (SStr id)
                    .> select None
                    .> single in
     p <- issue be query ;;
     r <- await (withTimeout p None) ;;
     match error r with
     | Some error =>
         console_error "Error updating officer:" (pg_message error) ;;
         throw (mkError ("Failed to update officer: "
                         +:+ pg_message error))
     | None => ret (data r)
     end)
    (fun error =>
       console_error "CMS API Error - updateOfficer:" (message error) ;;
       throw error).

Definition deleteOfficer (id : string) : Async Trace Value :=
  try_catch
    (when (shouldUseDemoMode (env be))
       (throw (mkError "Demo mode - no database connection")) ;;
     let query := from "officers" .> delete
                    .> eq "id" (SStr id) in
     p <- issue be query ;;
     r <- await (withTimeout p None) ;;
     match error r with
     | Some error =>
         console_error "Error deleting officer:" (pg_message error) ;;
         throw (mkError ("Failed to delete officer: "
                         +:+ pg_message error))
     | None => ret (VUndefined)
     end)
    (fun error =>
       console_error "CMS API Error - deleteOfficer:" (message error) ;;
       throw error).

(** Testimonials *)
Definition getTestimonials : Async Trace Value :=
  try_catch
    (when (shouldUseDemoMode (env be))
       (throw (mkError "Demo mode - no database connection")) ;;
     let query := from "testimonials" .> select (Some "*")
                    .> eq "is_published" (SBool true)
                    .> order "sort_order" true in
     p <- issue be query ;;
     r <- await (withTimeout p None) ;;
     match error r with
     | Some error =>
         console_error "Error fetching testimonials:" (pg_message error) ;;
         throw (mkError ("Failed to fetch testimonials: "
                         +:+ pg_message error))
     | None => ret (data r)
     end)
    (fun error =>
       console_error "CMS API Error - getTestimonials:" (message error) ;;
       throw error).

Definition createTestimonial (testimonial : gmap string Scalar) : Async Trace Value :=
  try_catch
    (when (shouldUseDemoMode (env be))
       (throw (mkError "Demo mode - no database connection")) ;;
     let query := from "testimonials" .> insert testimonial
                    .> select None
                    .> single in
     p <- issue be query ;;
     r <- await (withTimeout p None) ;;
     match error r with
     | Some error =>
         console_error "Error creating testimonial:" (pg_message error) ;;
         throw (mkError ("Failed to create testimonial: "
                         +:+ pg_message error))
     | None => ret (data r)
     end)
    (fun error =>
       console_error "CMS API Error - createTestimonial:" (message error) ;;
       throw error).

Definition updateTestimonial (id : string) (testimonial : gmap string Scalar) : Async Trace Value :=
  try_catch
    (when (shouldUseDemoMode (env be))
       (throw (mkError "Demo mode - no database connection")) ;;
     let query := from "testimonials" .> update testimonial
                    .> eq "id" (SStr id)
                    .> select None
                    .> single in
     p <- issue be query ;;
     r <- await (withTimeout p None) ;;
     match error r with
     | Some error =>
         console_error "Error updating testimonial:" (pg_message error) ;;
         throw (mkError ("Failed to update testimonial: "
                         +:+ pg_message error))
     | None => ret (data r)
     end)
    (fun error =>
       console_error "CMS API Error - updateTestimonial:" (message error) ;;
       throw error).

Definition deleteTestimonial (id : string) : Async Trace Value :=
  try_catch
    (when (shouldUseDemoMode (env be))
       (throw (mkError "Demo mode - no database connection")) ;;
     let query := from "testimonials" .> delete
                    .> eq "id" (SStr id) in
     p <- issue be query ;;
     r <- await (withTimeout p None) ;;
     match error r with
     | Some error =>
         console_error "Error deleting testimonial:" (pg_message error) ;;
         throw (mkError ("Failed to delete testimonial: "
                         +:+ pg_message error))
     | None => ret (VUndefined)
     end)
    (fun error =>
       console_error "CMS API Error - deleteTestimonial:" (message error) ;;
       throw error).

(** FAQ Items *)
Definition getFAQItems : Async Trace Value :=
  try_catch
    (when (shouldUseDemoMode (env be))
       (throw (mkError "Demo mode - no database connection")) ;;
     let query := from "faq_items" .> select (Some "*")
                    .> eq "is_published" (SBool true)
                    .> order "sort_order" true in
     p <- issue be query ;;
     r <- await (withTimeout p None) ;;
     match error r with
     | Some error =>
         console_error "Error fetching FAQ items:" (pg_message error) ;;
         throw (mkError ("Failed to fetch FAQ items: "
                         +:+ pg_message error))
     | None => ret (data r)
     end)
    (fun error =>
       console_error "CMS API Error - getFAQItems:" (message error) ;;
       throw error).

Definition createFAQItem (faq : gmap string Scalar) : Async Trace Value :=
  try_catch
    (when (shouldUseDemoMode (env be))
       (throw (mkError "Demo mode - no database connection")) ;;
     let query := from "faq_items" .> insert faq
                    .> select None
                    .> single in
     p <- issue be query ;;
     r <- await (withTimeout p None) ;;
     match error r with
     | Some error =>
         console_error "Error creating FAQ item:" (pg_message error) ;;
         throw (mkError ("Failed to create FAQ item: "
                         +:+ pg_message error))
     | None => ret (data r)
     end)
    (fun error =>
       console_error "CMS API Error - createFAQItem:" (message error) ;;
       throw error).

Definition updateFAQItem (id : string) (faq : gmap string Scalar) : Async Trace Value :=
  try_catch
    (when (shouldUseDemoMode (env be))
       (throw (mkError "Demo mode - no database connection")) ;;
     let query := from "faq_items" .> update faq
                    .> eq "id" (SStr id)
                    .> select None
                    .> single in
     p <- issue be query ;;
     r <- await (withTimeout p None) ;;
     match error r with
     | Some error =>
         console_error "Error updating FAQ item:" (pg_message error) ;;
         throw (mkError ("Failed to update FAQ item: "
                         +:+ pg_message error))
     | None => ret (data r)
     end)
    (fun error =>
       console_error "CMS API Error - updateFAQItem:" (message error) ;;
       throw error).

Definition deleteFAQItem (id : string) : Async Trace Value :=
  try_catch
    (when (shouldUseDemoMode (env be))
       (throw (mkError "Demo mode - no database connection")) ;;
     let query := from "faq_items" .> delete
                    .> eq "id" (SStr id) in
     p <- issue be query ;;
     r <- await (withTimeout p None) ;;
     match error r with
     | Some error =>
         console_error "Error deleting FAQ item:" (pg_message error) ;;
         throw (mkError ("Failed to delete FAQ item: "
                         +:+ pg_message error))
     | None => ret (VUndefined)
     end)
    (fun error =>
       console_error "CMS API Error - deleteFAQItem:" (message error) ;;
       throw error).

(** Site Settings *)
Definition getSiteSettings : Async Trace Value :=
  try_catch
    (when (shouldUseDemoMode (env be))
       (throw (mkError "Demo mode - no database connection")) ;;
     let query := from "site_settings" .> select (Some "*")
                    .> order "setting_key" true in
     p <- issue be query ;;
     r <- await (withTimeout p None) ;;
     match error r with
     | Some error =>
         console_error "Error fetching site settings:" (pg_message error) ;;
         throw (mkError ("Failed to fetch site settings: "
                         +:+ pg_message error))
     | None => ret (data r)
     end)
    (fun error =>
       console_error "CMS API Error - getSiteSettings:" (message error) ;;
       throw error).

Definition updateSiteSetting (key value : string) : Async Trace Value :=
  try_catch
    (when (shouldUseDemoMode (env be))
       (throw (mkError "Demo mode - no database connection")) ;;
     let query := from "site_settings" .> update (obj [("setting_value", SStr value)])
                    .> eq "setting_key" (SStr key)
                    .> select None
                    .> single in
     p <- issue be query ;;
     r <- await (withTimeout p None) ;;
     match error r with
     | Some error =>
         console_error "Error updating site setting:" (pg_message error) ;;
         throw (mkError ("Failed to update site setting: "
                         +:+ pg_message error))
     | None => ret (data r)
     end)
    (fun error =>
       console_error "CMS API Error - updateSiteSetting:" (message error) ;;
       throw error).

(** Page Content *)
Definition getPageContent (pageName : option string) : Async Trace Value :=
  try_catch
    (when (shouldUseDemoMode (env be))
       (throw (mkError "Demo mode - no database connection")) ;;
     let query := from "page_content" .> select (Some "*") in
     let query := if truthy_string pageName
                  then query .> eq "page_name" (SStr (default "" pageName))
                  else query in
     let query := query .> order "page_name" true in
     p <- issue be query ;;
     r <- await (withTimeout p None) ;;
     match error r with
     | Some error =>
         console_error "Error fetching page content:" (pg_message error) ;;
         throw (mkError ("Failed to fetch page content: "
                         +:+ pg_message error))
     | None => ret (data r)
     end)
    (fun error =>
       console_error "CMS API Error - getPageContent:" (message error) ;;
       throw error).

Definition updatePageContent (pageName sectionName content : string)
  : Async Trace Value :=
  try_catch
    (when (shouldUseDemoMode (env be))
       (throw (mkError "Demo mode - no database connection")) ;;
     let query := from "page_content" .> upsert (obj [("page_name", SStr pageName);
                                  ("section_name", SStr sectionName);
                                  ("content", SStr content);
                                  ("content_type", SStr "text")])
                    .> select None
                    .> single in
     p <- issue be query ;;
     r <- await (withTimeout p None) ;;
     match error r with
     | Some error =>
         console_error "Error updating page content:" (pg_message error) ;;
         throw (mkError ("Failed to update page content: "
                         +:+ pg_message error))
     | None => ret (data r)
     end)
    (fun error =>
       console_error "CMS API Error - updatePageContent:" (message error) ;;
       throw error).

Definition createPageContent (pageContent : gmap string Scalar) : Async Trace Value :=
  try_catch
    (when (shouldUseDemoMode (env be))
       (throw (mkError "Demo mode - no database connection")) ;;
     let query := from "page_content" .> insert pageContent
                    .> select None
                    .> single in
     p <- issue be query ;;
     r <- await (withTimeout p None) ;;
     match error r with
     | Some error =>
         console_error "Error creating page content:" (pg_message error) ;;
         throw (mkError ("Failed to create page content: "
                         +:+ pg_message error))
     | None => ret (data r)
     end)
    (fun error =>
       console_error "CMS API Error - createPageContent:" (message error) ;;
       throw error).

End Operations.

(** A call of one operation of the [cmsApi] object, with its arguments. *)
Inductive Call :=
| GetEvents
| GetNextUpcomingEvent
| CreateEvent (event : gmap string Scalar)
| UpdateEvent (id : string) (event : gmap string Scalar)
| DeleteEvent (id : string)
| GetNewsArticles
| CreateNewsArticle (article : gmap string Scalar)
| UpdateNewsArticle (id : string) (article : gmap string Scalar)
| DeleteNewsArticle (id : string)
| GetOfficers
| CreateOfficer (officer : gmap string Scalar)
| UpdateOfficer (id : string) (officer : gmap string Scalar)
| DeleteOfficer (id : string)
| GetTestimonials
| CreateTestimonial (testimonial : gmap string Scalar)
| UpdateTestimonial (id : string) (testimonial : gmap string Scalar)
| DeleteTestimonial (id : string)
| GetFAQItems
| CreateFAQItem (faq : gmap string Scalar)
| UpdateFAQItem (id : string) (faq : gmap string Scalar)
| DeleteFAQItem (id : string)
| GetSiteSettings
| UpdateSiteSetting (key value : string)
| GetPageContent (pageName : option string)
| UpdatePageContent (pageName sectionName content : string)
| CreatePageContent (pageContent : gmap string Scalar).

Definition invoke (be : Backend) (c : Call) : Async Trace Value :=
  match c with
  | GetEvents => getEvents be
  | GetNextUpcomingEvent => getNextUpcomingEvent be
  | CreateEvent event => createEvent be event
  | UpdateEvent id event => updateEvent be id event
  | DeleteEvent id => deleteEvent be id
  | GetNewsArticles => getNewsArticles be
  | CreateNewsArticle article => createNewsArticle be article
  | UpdateNewsArticle id article => updateNewsArticle be id article
  | DeleteNewsArticle id => deleteNewsArticle be id
  | GetOfficers => getOfficers be
  | CreateOfficer officer => createOfficer be officer
  | UpdateOfficer id officer => updateOfficer be id officer
  | DeleteOfficer id => deleteOfficer be id
  | GetTestimonials => getTestimonials be
  | CreateTestimonial testimonial => createTestimonial be testimonial
  | UpdateTestimonial id testimonial => updateTestimonial be id testimonial
  | DeleteTestimonial id => deleteTestimonial be id
  | GetFAQItems => getFAQItems be
  | CreateFAQItem faq => createFAQItem be faq
  | UpdateFAQItem id faq => updateFAQItem be id faq
  | DeleteFAQItem id => deleteFAQItem be id
  | GetSiteSettings => getSiteSettings be
  | UpdateSiteSetting key value => updateSiteSetting be key value
  | GetPageContent pageName => getPageContent be pageName
  | UpdatePageContent pageName sectionName content =>
      updatePageContent be pageName sectionName content
  | CreatePageContent pageContent => createPageContent be pageContent
  end.

End CmsApi.

(* ===================================================================== *)
(** * [src/contexts/AuthContext.tsx]: the session tracker *)
(* ===================================================================== *)

Module AuthContext.

(** [{ data: { session }, error }] of [supabase.auth.getSession()] *)
Record SessionResult := { session : option Session; session_error : option Error }.

(** What the component talks to.  [api_getMemberProfile] is the
    [getMemberProfile] of [optimizedApi] ([src/lib/optimizedApi], outside
    this listing): only how its promise settles matters to the component. *)
Record Provider := {
  auth_getSession : Promise SessionResult;
  (** [supabase.auth.signOut()], its [error] *)
  auth_signOut : Promise (option Error);
  api_getMemberProfile : string -> Promise (option MemberProfile);
  (** [new Date().toISOString()] *)
  now : string
}.

(** Profiles are objects: the state cell holds a reference into a heap of
    objects, in allocation order. *)
Definition Ref := nat.

(** The four [useState] cells. *)
Record State := {
  user : option User;
  profile : option Ref;
  loading : bool;
  error : option string
}.

Inductive Event :=
| CalledGetSession
| CalledSignOut
| CalledGetMemberProfile (userId : string)
| ConsoleWarn (label detail : string)
| ConsoleError (label detail : string).

(** The component instance: its cells, the [mounted] flag of the effect,
    the heap of profile objects and what it did to the outside. *)
Record World := {
  state : State;
  mounted : bool;
  heap : list MemberProfile;
  log : list Event
}.

Definition initial : World :=
  {| state := {| user := None; profile := None; loading := true;
                 error := None |};
     mounted := true; heap := []; log := [] |}.

Definition with_state (f : State -> State) (w : World) : World :=
  {| state := f (state w); mounted := mounted w; heap := heap w;
     log := log w |}.

Definition setUser (u : option User) : Async World unit :=
  modify (with_state (fun s =>
    {| user := u; profile := profile s; loading := loading s;
       error := error s |})).

Definition setProfile (p : option Ref) : Async World unit :=
  modify (with_state (fun s =>
    {| user := user s; profile := p; loading := loading s;
       error := error s |})).

Definition setLoading (b : bool) : Async World unit :=
  modify (with_state (fun s =>
    {| user := user s; profile := profile s; loading := b;
       error := error s |})).

Definition setError (e : option string) : Async World unit :=
  modify (with_state (fun s =>
    {| user := user s; profile := profile s; loading := loading s;
       error := e |})).

Definition record (e : Event) : Async World unit :=
  modify (fun w =>
    {| state := state w; mounted := mounted w; heap := heap w;
       log := log w ++ [e] |}).

(** A new object, and the reference to it. *)
Definition alloc (p : MemberProfile) : Async World Ref :=
  fun w =>
    (Returned (List.length (heap w)),
     {| state := state w; mounted := mounted w; heap := heap w ++ [p];
        log := log w |}).

(** The profile object the state cell refers to. *)
Definition currentProfile (w : World) : option MemberProfile :=
  match profile (state w) with
  | Some r => heap w !! r
  | None => None
  end.

(** What the rest of the program does to the component while one of its
    functions waits at an [await]; [quiet] when nothing happens. *)
Definition Meanwhile : Type := World -> World.

Definition quiet : Meanwhile := fun w => w.

(** The clean-up of the effect, [mounted = false]
    ([subscription.unsubscribe()] ends the delivery of events). *)
Definition cleanUp : Meanwhile :=
  fun w =>
    {| state := state w; mounted := false; heap := heap w; log := log w |}.

Section Component.

Variable be : Provider.

(** Demo profile for demo users: the object literal. *)
Definition createDemoProfile (user : User) : MemberProfile :=
  {| id := "demo-profile-1";
     user_id := uid user;
     full_name := if strict_eq (email user) "demo@radlettlodge.org"
                  then "Demo Admin" else "New Member";
     position := if strict_eq (email user) "demo@radlettlodge.org"
                 then Some "Worshipful Master" else None;
     role := if strict_eq (email user) "demo@radlettlodge.org"
             then admin else member;
     join_date := "2020-03-15";
     created_at := "2020-03-15T00:00:00Z";
     updated_at := "2024-01-01T00:00:00Z";
     status := "active";
     email_verified := true;
     registration_date := "2020-03-15T00:00:00Z";
     last_login := Some (now be);
     needs_password_reset := None |}.

(** [await api.getMemberProfile(id)]: the call is made, [meanwhile]
    happens while it is pending, and the object it resolves with is a new
    one. *)
Definition getMemberProfile (meanwhile : Meanwhile) (userId : string)
  : Async World (option Ref) :=
  record (CalledGetMemberProfile userId) ;;
  modify meanwhile ;;
  realProfile <- await (api_getMemberProfile be userId) ;;
  match realProfile with
  | Some p => r <- alloc p ;; ret (Some r)
  | None => ret None
  end.

(** [loadProfile], with what happens while the fetch is pending.  The
    inner [try] answers whether the function has returned from within
    it. *)
Definition loadProfileWhile (meanwhile : Meanwhile) (currentUser : User)
  : Async World unit :=
  try_catch
    (setError None ;;
     returned <- try_catch
       (realProfile <- getMemberProfile meanwhile (uid currentUser) ;;
        match realProfile with
        | Some r => setProfile (Some r) ;; ret true
        | None => ret false
        end)
       (fun profileError =>
          record (ConsoleWarn
                    "Could not load real profile, using demo profile:"
                    (message profileError)) ;;
          ret false) ;;
     if returned : bool then ret tt
     else
       demoProfile <- alloc (createDemoProfile currentUser) ;;
       setProfile (Some demoProfile))
    (fun error =>
       record (ConsoleError "Error in loadProfile:" (message error)) ;;
       demoProfile <- alloc (createDemoProfile currentUser) ;;
       setProfile (Some demoProfile)).

(** [loadProfile] with nothing happening while it waits. *)
Definition loadProfile (currentUser : User) : Async World unit :=
  loadProfileWhile quiet currentUser.

(** [refreshProfile] as a render made it: [user] is the identity that
    render saw, and the function keeps it, whatever the state cell holds
    when the function is called. *)
Definition refreshProfileOf (user : option User) : Async World unit :=
  match user with
  | Some u => loadProfile u
  | None => ret tt
  end.

(** The [refreshProfile] made by the render of the current state. *)
Definition refreshProfile : Async World unit :=
  w <- get ;;
  refreshProfileOf (user (state w)).

(** Get initial session, with what happens while the session lookup and
    while the profile fetch are pending. *)
Definition getInitialSessionWhile (whileSession whileFetch : Meanwhile)
  : Async World unit :=
  try_finally
    (try_catch
       (record CalledGetSession ;;
        modify whileSession ;;
        r <- await (auth_getSession be) ;;
        match session_error r with
        | Some error =>
            record (ConsoleError "Error getting session:" (message error)) ;;
            setError (Some "Authentication error")
        | None =>
            w <- get ;;
            match session r with
            | Some s =>
                if mounted w then
                  setUser (Some (Types.user s)) ;;
                  loadProfileWhile whileFetch (Types.user s)
                else ret tt
            | None => ret tt
            end
        end)
       (fun err =>
          record (ConsoleError "Unexpected error getting session:"
                    (message err)) ;;
          setError (Some "Failed to authenticate")))
    (w <- get ;; when (mounted w) (setLoading false)).

(** The initial session check with nothing happening while it waits. *)
Definition getInitialSession : Async World unit :=
  getInitialSessionWhile quiet quiet.

(** The provider's session-change events; the component tells three of
    them apart. *)
Inductive AuthChangeEvent :=
| INITIAL_SESSION
| PASSWORD_RECOVERY
| SIGNED_IN
| SIGNED_OUT
| TOKEN_REFRESHED
| USER_UPDATED.

(** Listen for auth changes: the callback given to
    [supabase.auth.onAuthStateChange], with what happens while its profile
    fetch is pending. *)
Definition onAuthStateChangeWhile (whileFetch : Meanwhile)
    (event : AuthChangeEvent) (session : option Session)
  : Async World unit :=
  w <- get ;;
  if negb (mounted w) then ret tt
  else
    try_catch
      (setError None ;;
       match event, session with
       | SIGNED_IN, Some s =>
           setUser (Some (Types.user s)) ;;
           loadProfileWhile whileFetch (Types.user s)
       | SIGNED_IN, None => ret tt
       | SIGNED_OUT, _ =>
           setUser None ;;
           setProfile None
       | TOKEN_REFRESHED, Some s =>
           (* Don't reload profile on token refresh, just update user *)
           setUser (Some (Types.user s))
       | _, _ => ret tt
       end)
      (fun err =>
         record (ConsoleError "Error handling auth state change:"
                   (message err)) ;;
         setError (Some "Authentication error")).

(** The callback with nothing happening while it waits. *)
Definition onAuthStateChange (event : AuthChangeEvent)
    (session : option Session) : Async World unit :=
  onAuthStateChangeWhile quiet event session.

(** The clean-up of the effect, as a step of its own. *)
Definition unmount : Async World unit := modify cleanUp.

Definition signOut : Async World unit :=
  try_catch
    (setError None ;;
     record CalledSignOut ;;
     r <- await (auth_signOut be) ;;
     match r with
     | Some error => throw error
     | None =>
         setUser None ;;
         setProfile None
     end)
    (fun error =>
       record (ConsoleError "Error signing out:" (message error)) ;;
       setError (Some "Failed to sign out") ;;
       throw error).

End Component.

(** [profile?.role === 'admin'] *)
Definition isAdmin (w : World) : bool :=
  match currentProfile w with
  | Some p => match role p with admin => true | member => false end
  | None => false
  end.

(** [profile?.needs_password_reset === true] *)
Definition needsPasswordReset (w : World) : bool :=
  match currentProfile w with
  | Some p => match needs_password_reset p with Some true => true | _ => false end
  | None => false
  end.

End AuthContext.

(* ===================================================================== *)
(** * Vocabulary of the properties, and sample worlds *)
(* ===================================================================== *)

Module Spec.

(** The error of the demo-mode guard. *)
Definition demoModeError : Error :=
  mkError "Demo mode - no database connection".

(** The error of the timer, carrying its bound. *)
Definition timeoutError (timeoutMs : N) : Error :=
  mkError ("Request timeout after " +:+ pretty timeoutMs +:+ "ms").

(** The promise has not settled when [ms] milliseconds have passed. *)
Definition late {T} (p : Promise T) (ms : N) : Prop :=
  match p with
  | None => True
  | Some (t, _) => (ms < t)%N
  end.

(** The promise is fulfilled with [v] before [ms] milliseconds have
    passed. *)
Definition fulfilledBefore {T} (p : Promise T) (ms : N) (v : T) : Prop :=
  match p with
  | Some (t, Fulfilled v') => (t < ms)%N /\ v' = v
  | _ => False
  end.

(** The call threw the demo-mode error and reached nothing outside but the
    console. *)
Definition failsInDemoMode (tr : Trace) (r : Outcome Value * Trace) : Prop :=
  fst r = Thrown demoModeError /\ network (snd r) = network tr.

(** The required connection configuration (URL and public key) is not
    there. *)
Definition configurationAbsent (e : Env) : Prop :=
  VITE_SUPABASE_URL e = None \/ VITE_SUPABASE_ANON_KEY e = None.

(** The read operations of [api]: those that only select. *)
Definition apiRead (c : Api.Call) : bool :=
  match c with
  | Api.GetMemberProfile _ | Api.GetAllMembers
  | Api.GetLodgeDocuments _ | Api.GetMeetingMinutes => true
  | _ => false
  end.

(** The read operations of [cmsApi]. *)
Definition cmsRead (c : CmsApi.Call) : bool :=
  match c with
  | CmsApi.GetEvents | CmsApi.GetNextUpcomingEvent | CmsApi.GetNewsArticles
  | CmsApi.GetOfficers | CmsApi.GetTestimonials | CmsApi.GetFAQItems
  | CmsApi.GetSiteSettings | CmsApi.GetPageContent _ => true
  | _ => false
  end.

(** The bound of the query a call of [api] wraps, as the calls are
    written; [deleteUserAndProfile] wraps none. *)
Definition apiBound (c : Api.Call) : option N :=
  match c with
  | Api.DeleteUserAndProfile _ => None
  | Api.GetAllMembers => Some 90000%N
  | _ => Some 60000%N
  end.

Definition sampleClock : Clock :=
  {| Date_now := 1700000000000%N; toISOString := "2023-11-14T22:13:20.000Z" |}.

(** No connection configuration; a request that leaves anyway fails after
    20 ms. *)
Definition demoBackend : Backend :=
  {| env := {| VITE_SUPABASE_URL := None; VITE_SUPABASE_ANON_KEY := None |};
     clock := sampleClock;
     execute := fun _ => Some (20%N, Rejected (mkError "Failed to fetch"));
     getSession := Some (1%N, Fulfilled None);
     fetch := fun _ => Some (20%N, Rejected (mkError "Failed to fetch")) |}.

Definition connectedEnv : Env :=
  {| VITE_SUPABASE_URL := Some "https://radlett.supabase.co";
     VITE_SUPABASE_ANON_KEY := Some "public-anon-key" |}.

(** A configured backend whose database answers every query after 75 s,
    with no row and no error. *)
Definition slowBackend : Backend :=
  {| env := connectedEnv;
     clock := sampleClock;
     execute := fun _ =>
       Some (75000%N, Fulfilled {| data := VArray []; error := None |});
     getSession := Some (1%N, Fulfilled None);
     fetch := fun _ => None |}.

(** A configured backend whose database answers after 120 ms. *)
Definition quickBackend : Backend :=
  {| env := connectedEnv;
     clock := sampleClock;
     execute := fun _ =>
       Some (120%N, Fulfilled {| data := VArray []; error := None |});
     getSession := Some (1%N, Fulfilled None);
     fetch := fun _ => None |}.

(** The world after a completed profile load that stored the new object
    [p] and left [events] in the log. *)
Definition stored (w : AuthContext.World) (p : MemberProfile)
    (events : list AuthContext.Event) : AuthContext.World :=
  {| AuthContext.state :=
       {| AuthContext.user := AuthContext.user (AuthContext.state w);
          AuthContext.profile := Some (List.length (AuthContext.heap w));
          AuthContext.loading := AuthContext.loading (AuthContext.state w);
          AuthContext.error := None |};
     AuthContext.mounted := AuthContext.mounted w;
     AuthContext.heap := AuthContext.heap w ++ [p];
     AuthContext.log := AuthContext.log w ++ events |}.

(** The identity has no matching real profile: [getMemberProfile] fails, or
    returns null. *)
Definition noRealProfile (be : AuthContext.Provider) (u : User) : Prop :=
  match AuthContext.api_getMemberProfile be (uid u) with
  | Some (_, Rejected _) => True
  | Some (_, Fulfilled None) => True
  | _ => False
  end.

(** The provider's sign-out call fails with [e]: it answers with an error,
    or its promise is rejected. *)
Definition signOutFails (be : AuthContext.Provider) (e : Error) : Prop :=
  match AuthContext.auth_signOut be with
  | Some (_, Fulfilled (Some e')) => e' = e
  | Some (_, Rejected e') => e' = e
  | _ => False
  end.

Definition demoUser : User :=
  {| uid := "u1"; email := Some "demo@radlettlodge.org" |}.

Definition annUser : User :=
  {| uid := "u2"; email := Some "ann@example.org" |}.

Definition annSession : Session :=
  {| Types.user := annUser; access_token := "token-2" |}.

Definition annProfile : MemberProfile :=
  {| id := "p-2"; user_id := "u2"; full_name := "Ann"; position := None;
     role := member; join_date := "2021-05-01";
     created_at := "2021-05-01T10:00:00Z";
     updated_at := "2021-05-01T10:00:00Z"; status := "active";
     email_verified := true; registration_date := "2021-05-01T10:00:00Z";
     last_login := None; needs_password_reset := None |}.

(** A provider that knows no profile and signs out without error. *)
Definition noProfileProvider : AuthContext.Provider :=
  {| AuthContext.auth_getSession :=
       Some (5%N, Fulfilled {| AuthContext.session := Some annSession;
                              AuthContext.session_error := None |});
     AuthContext.auth_signOut := Some (5%N, Fulfilled None);
     AuthContext.api_getMemberProfile := fun _ => Some (8%N, Fulfilled None);
     AuthContext.now := "2026-01-01T00:00:00.000Z" |}.

(** A provider whose profile fetch fails and whose sign-out answers with
    an error. *)
Definition failingProvider : AuthContext.Provider :=
  {| AuthContext.auth_getSession :=
       Some (5%N, Fulfilled {| AuthContext.session := Some annSession;
                              AuthContext.session_error := None |});
     AuthContext.auth_signOut :=
       Some (5%N, Fulfilled (Some (mkError "Network request failed")));
     AuthContext.api_getMemberProfile :=
       fun _ => Some (8%N, Rejected (mkError "Request timeout after 60000ms"));
     AuthContext.now := "2026-01-01T00:00:00.000Z" |}.

(** A mounted tracker that holds an identity and a loaded profile. *)
Definition signedInWorld (u : User) (p : MemberProfile) : AuthContext.World :=
  {| AuthContext.state :=
       {| AuthContext.user := Some u; AuthContext.profile := Some 0;
          AuthContext.loading := false; AuthContext.error := None |};
     AuthContext.mounted := true;
     AuthContext.heap := [p];
     AuthContext.log := [] |}.

End Spec.

Export Spec.

(* ===================================================================== *)
(** * Vocabulary of the further properties, and more sample worlds *)
(* ===================================================================== *)

Module More.

(** The promise is rejected with [e] before [ms] milliseconds have
    passed. *)
Definition rejectedBefore {T} (p : Promise T) (ms : N) (e : Error) : Prop :=
  match p with
  | Some (t, Rejected e') => (t < ms)%N /\ e' = e
  | _ => False
  end.

(** The promise has not settled before [ms] milliseconds have passed: it
    never settles, or settles at [ms] or later. *)
Definition overdue {T} (p : Promise T) (ms : N) : Prop :=
  match p with
  | None => True
  | Some (t, _) => (ms <= t)%N
  end.

(** U+00A0, the no-break space, in UTF-8. *)
Definition nbsp : string := String "194"%char (String "160"%char "").

(** The console entries of a trace. *)
Definition console (tr : Trace) : Trace :=
  List.filter (fun e => negb (isNetwork e)) tr.



(** The text an operation of [api] puts before the database's message
    when the database refuses its query; [deleteUserAndProfile] sends no
    query. *)
Definition apiRefusalPrefix (c : Api.Call) : option string :=
  match c with
  | Api.GetMemberProfile _ => Some "Failed to fetch profile: "
  | Api.CreateMemberProfile _ _ => Some "Failed to create profile: "
  | Api.AdminCreateMemberProfile _ => Some "Failed to create profile: "
  | Api.GetAllMembers => Some "Failed to fetch members: "
  | Api.UpdateMemberProfile _ _ => Some "Failed to update profile: "
  | Api.DeleteMemberProfile _ => Some "Failed to delete profile: "
  | Api.DeleteUserAndProfile _ => None
  | Api.GetLodgeDocuments _ => Some "Failed to fetch documents: "
  | Api.CreateDocument _ => Some "Failed to create document: "
  | Api.GetMeetingMinutes => Some "Failed to fetch meeting minutes: "
  | Api.CreateMinutes _ => Some "Failed to create meeting minutes: "
  end.

(** The same for the operations of [cmsApi]. *)
Definition cmsRefusalPrefix (c : CmsApi.Call) : string :=
  match c with
  | CmsApi.GetEvents => "Failed to fetch events: "
  | CmsApi.GetNextUpcomingEvent => "Failed to fetch next upcoming event: "
  | CmsApi.CreateEvent _ => "Failed to create event: "
  | CmsApi.UpdateEvent _ _ => "Failed to update event: "
  | CmsApi.DeleteEvent _ => "Failed to delete event: "
  | CmsApi.GetNewsArticles => "Failed to fetch news articles: "
  | CmsApi.CreateNewsArticle _ => "Failed to create news article: "
  | CmsApi.UpdateNewsArticle _ _ => "Failed to update news article: "
  | CmsApi.DeleteNewsArticle _ => "Failed to delete news article: "
  | CmsApi.GetOfficers => "Failed to fetch officers: "
  | CmsApi.CreateOfficer _ => "Failed to create officer: "
  | CmsApi.UpdateOfficer _ _ => "Failed to update officer: "
  | CmsApi.DeleteOfficer _ => "Failed to delete officer: "
  | CmsApi.GetTestimonials => "Failed to fetch testimonials: "
  | CmsApi.CreateTestimonial _ => "Failed to create testimonial: "
  | CmsApi.UpdateTestimonial _ _ => "Failed to update testimonial: "
  | CmsApi.DeleteTestimonial _ => "Failed to delete testimonial: "
  | CmsApi.GetFAQItems => "Failed to fetch FAQ items: "
  | CmsApi.CreateFAQItem _ => "Failed to create FAQ item: "
  | CmsApi.UpdateFAQItem _ _ => "Failed to update FAQ item: "
  | CmsApi.DeleteFAQItem _ => "Failed to delete FAQ item: "
  | CmsApi.GetSiteSettings => "Failed to fetch site settings: "
  | CmsApi.UpdateSiteSetting _ _ => "Failed to update site setting: "
  | CmsApi.GetPageContent _ => "Failed to fetch page content: "
  | CmsApi.UpdatePageContent _ _ _ => "Failed to update page content: "
  | CmsApi.CreatePageContent _ => "Failed to create page content: "
  end.

(** A configured backend whose database refuses every query after
    80 ms. *)
Definition refusingBackend : Backend :=
  {| env := connectedEnv;
     clock := sampleClock;
     execute := fun _ =>
       Some (80%N, Fulfilled {| data := VNull;
                               Supabase.error :=
                                 Some {| pg_message := "permission denied" |} |});
     getSession := Some (1%N, Fulfilled None);
     fetch := fun _ => None |}.

(** A configured backend whose requests fail after 30 ms. *)
Definition offlineBackend : Backend :=
  {| env := connectedEnv;
     clock := sampleClock;
     execute := fun _ => Some (30%N, Rejected (mkError "Failed to fetch"));
     getSession := Some (1%N, Fulfilled None);
     fetch := fun _ => Some (30%N, Rejected (mkError "Failed to fetch")) |}.

(** A signed-in backend whose deletion endpoint never answers. *)
Definition hangingEndpointBackend : Backend :=
  {| env := connectedEnv;
     clock := sampleClock;
     execute := fun _ => None;
     getSession := Some (1%N, Fulfilled (Some annSession));
     fetch := fun _ => None |}.

(** A signed-in backend whose deletion endpoint answers 404 with an error
    body. *)
Definition rejectingEndpointBackend : Backend :=
  {| env := connectedEnv;
     clock := sampleClock;
     execute := fun _ => None;
     getSession := Some (1%N, Fulfilled (Some annSession));
     fetch := fun _ =>
       Some (40%N,
             Fulfilled
               {| ok := false;
                  json := Some (41%N,
                                Fulfilled
                                  (VRow (ORecord
                                           (obj [("error",
                                                  SStr "User not found")])))) |}) |}.

(** A configured backend whose database answers every query after 120 ms
    with two member rows. *)
Definition twoRowsBackend : Backend :=
  {| env := connectedEnv;
     clock := sampleClock;
     execute := fun _ =>
       Some (120%N,
             Fulfilled {| data := VArray [OProfile annProfile;
                                          ORecord (obj [("id", SStr "row-2")])];
                          Supabase.error := None |});
     getSession := Some (1%N, Fulfilled None);
     fetch := fun _ => None |}.

(** The events the callback passes over: those it does not tell apart, and
    a sign-in or token refresh that brings no session. *)
Definition passedOver (event : AuthContext.AuthChangeEvent)
    (session : option Session) : bool :=
  match event, session with
  | AuthContext.SIGNED_OUT, _ => false
  | AuthContext.SIGNED_IN, Some _ => false
  | AuthContext.TOKEN_REFRESHED, Some _ => false
  | _, _ => true
  end.

(** What can happen to the component, one thing at a time: the initial
    session check, an event of the provider, the two actions it offers,
    and its clean-up.  A [refreshProfile] is the one some render made:
    [captured] is the identity that render saw. *)
Inductive Action :=
| InitialSession
| AuthEvent (event : AuthContext.AuthChangeEvent) (session : option Session)
| SignOut
| RefreshProfile (captured : option User)
| Unmount.

Definition perform (be : AuthContext.Provider) (a : Action)
  : Async AuthContext.World unit :=
  match a with
  | InitialSession => AuthContext.getInitialSession be
  | AuthEvent event session => AuthContext.onAuthStateChange be event session
  | SignOut => AuthContext.signOut be
  | RefreshProfile captured => AuthContext.refreshProfileOf be captured
  | Unmount => AuthContext.unmount
  end.



(** A provider that knows Ann's profile. *)
Definition annProvider : AuthContext.Provider :=
  {| AuthContext.auth_getSession :=
       Some (5%N, Fulfilled {| AuthContext.session := Some annSession;
                              AuthContext.session_error := None |});
     AuthContext.auth_signOut := Some (5%N, Fulfilled None);
     AuthContext.api_getMemberProfile :=
       fun _ => Some (8%N, Fulfilled (Some annProfile));
     AuthContext.now := "2026-01-01T00:00:00.000Z" |}.

(** A provider whose session lookup answers with an error. *)
Definition brokenSessionProvider : AuthContext.Provider :=
  {| AuthContext.auth_getSession :=
       Some (5%N, Fulfilled {| AuthContext.session := Some annSession;
                              AuthContext.session_error :=
                                Some (mkError "invalid refresh token") |});
     AuthContext.auth_signOut := Some (5%N, Fulfilled None);
     AuthContext.api_getMemberProfile :=
       fun _ => Some (8%N, Fulfilled (Some annProfile));
     AuthContext.now := "2026-01-01T00:00:00.000Z" |}.



End More.

Export More.

(* ===================================================================== *)
(** * Properties of the data-access wrapper *)
(* ===================================================================== *)

Lemma setTimeout_delay_fits (ms : N) :
  (ms < 2147483648)%N -> setTimeout_delay ms = ms.
Proof.
  intros H. unfold setTimeout_delay.
  destruct (N.ltb_spec ms 2147483648); [reflexivity|lia].
Qed.

Lemma setTimeout_delay_le (ms : N) : (setTimeout_delay ms <= ms)%N.
Proof.
  unfold setTimeout_delay.
  destruct (N.ltb_spec ms 2147483648); lia.
Qed.

Section TimeoutRace.

Context {T : Type}.

Lemma race_overdue (p : Promise T) (ms : N) (e : Error) :
  overdue p (setTimeout_delay ms) ->
  Promise_race p (rejectAfter ms e) = Some (setTimeout_delay ms, Rejected e).
Proof.
  destruct p as [[t s]|]; simpl; intros Hlate; [|reflexivity].
  destruct (N.ltb_spec t (setTimeout_delay ms)); [lia|reflexivity].
Qed.

Lemma race_late (p : Promise T) (ms : N) (e : Error) :
  late p ms ->
  Promise_race p (rejectAfter ms e) = Some (setTimeout_delay ms, Rejected e).
Proof.
  intros Hlate. apply race_overdue.
  pose proof (setTimeout_delay_le ms).
  destruct p as [[t s]|]; simpl in *; [lia|exact I].
Qed.

Lemma race_early (p : Promise T) (ms t : N) (s : Settlement T) (e : Error) :
  p = Some (t, s) -> (t < setTimeout_delay ms)%N ->
  Promise_race p (rejectAfter ms e) = p.
Proof.
  intros -> Hlt; simpl.
  destruct (N.ltb_spec t (setTimeout_delay ms)); [reflexivity|lia].
Qed.

Lemma race_fulfilledBefore (p : Promise T) (ms : N) (v : T) (e : Error) :
  fulfilledBefore p ms v ->
  (ms < 2147483648)%N ->
  exists t, Promise_race p (rejectAfter ms e) = Some (t, Fulfilled v).
Proof.
  intros Hp Hfits.
  destruct p as [[t [v'|r]]|]; simpl in *; try tauto.
  destruct Hp as [Hlt ->]. exists t.
  rewrite (setTimeout_delay_fits ms Hfits).
  destruct (N.ltb_spec t ms); [reflexivity|lia].
Qed.

End TimeoutRace.

(** ** The demo-mode guard *)

Lemma cms_shouldUseDemoMode (e : Env) :
  CmsApi.shouldUseDemoMode e = Api.shouldUseDemoMode e.
Proof. reflexivity. Qed.

Lemma absent_shouldUseDemoMode (e : Env) :
  configurationAbsent e -> Api.shouldUseDemoMode e = true.
Proof.
  unfold Api.shouldUseDemoMode.
  intros [H|H]; rewrite H; simpl; [reflexivity|apply orb_true_r].
Qed.

(** An empty value is as good as none. *)
Lemma empty_url_shouldUseDemoMode (key : option string) :
  Api.shouldUseDemoMode
    {| VITE_SUPABASE_URL := Some ""; VITE_SUPABASE_ANON_KEY := key |} = true.
Proof. reflexivity. Qed.

Lemma network_console (tr : Trace) (label detail : string) :
  network (tr ++ [World.ConsoleError label detail]) = network tr.
Proof.
  unfold network. rewrite List.filter_app. simpl. apply app_nil_r.
Qed.

Create HintDb operations.

#[local] Hint Unfold
  Api.invoke Api.getMemberProfile Api.createMemberProfile
  Api.adminCreateMemberProfile Api.getAllMembers Api.updateMemberProfile
  Api.deleteMemberProfile Api.getLodgeDocuments Api.createDocument
  Api.getMeetingMinutes Api.createMinutes
  CmsApi.invoke CmsApi.getEvents CmsApi.getNextUpcomingEvent
  CmsApi.createEvent CmsApi.updateEvent CmsApi.deleteEvent
  CmsApi.getNewsArticles CmsApi.createNewsArticle CmsApi.updateNewsArticle
  CmsApi.deleteNewsArticle CmsApi.getOfficers CmsApi.createOfficer
  CmsApi.updateOfficer CmsApi.deleteOfficer CmsApi.getTestimonials
  CmsApi.createTestimonial CmsApi.updateTestimonial
  CmsApi.deleteTestimonial CmsApi.getFAQItems CmsApi.createFAQItem
  CmsApi.updateFAQItem CmsApi.deleteFAQItem CmsApi.getSiteSettings
  CmsApi.updateSiteSetting CmsApi.getPageContent CmsApi.updatePageContent
  CmsApi.createPageContent
  : operations.

(** Open the operation at hand and decide its guard by [H]. *)
Ltac run_guarded H := autounfold with operations; rewrite H; reflexivity.

Lemma api_read_guarded (be : Backend) (c : Api.Call) (tr : Trace) :
  Api.shouldUseDemoMode (env be) = true ->
  apiRead c = true ->
  exists label,
    Api.invoke be c tr
    = (Thrown demoModeError,
       tr ++ [World.ConsoleError label (message demoModeError)]).
Proof.
  intros Hdemo Hread.
  destruct c; try discriminate Hread; eexists; run_guarded Hdemo.
Qed.

Lemma cms_guarded (be : Backend) (c : CmsApi.Call) (tr : Trace) :
  CmsApi.shouldUseDemoMode (env be) = true ->
  exists label,
    CmsApi.invoke be c tr
    = (Thrown demoModeError,
       tr ++ [World.ConsoleError label (message demoModeError)]).
Proof.
  intros Hdemo. destruct c; eexists; run_guarded Hdemo.
Qed.

Lemma guarded_failsInDemoMode (tr : Trace) (r : Outcome Value * Trace) :
  (exists label,
     r = (Thrown demoModeError,
          tr ++ [World.ConsoleError label (message demoModeError)])) ->
  failsInDemoMode tr r.
Proof.
  intros [label ->]; split; [reflexivity|apply network_console].
Qed.

Lemma createMemberProfile_demo (be : Backend) (userId fullName : string)
    (tr : Trace) :
  Api.shouldUseDemoMode (env be) = true ->
  exists p,
    Api.invoke be (Api.CreateMemberProfile userId fullName) tr
      = (Returned (VRow (OProfile p)), tr)
    /\ status p = "pending" /\ user_id p = userId /\ full_name p = fullName
    /\ role p = member.
Proof.
  intros Hdemo. eexists; split.
  - autounfold with operations. rewrite Hdemo. reflexivity.
  - repeat split.
Qed.

(** C2, as stated, fails.  With no connection configuration (the demo-mode
    predicate is true), [createMemberProfile "u1" "Ann"] does not fail: it
    returns a profile; and [updateMemberProfile "u1" {}] hands its query to
    the client and fails with the client's error, not with the demo-mode
    error. *)
Lemma demo_guard_not_in_every_operation :
  Api.shouldUseDemoMode (env demoBackend) = true
  /\ Api.invoke demoBackend (Api.CreateMemberProfile "u1" "Ann") []
     = (Returned (VRow (OProfile {|
          id := "demo-1700000000000";
          user_id := "u1";
          full_name := "Ann";
          position := None;
          role := member;
          join_date := "2023-11-14";
          created_at := "2023-11-14T22:13:20.000Z";
          updated_at := "2023-11-14T22:13:20.000Z";
          status := "pending";
          email_verified := false;
          registration_date := "2023-11-14T22:13:20.000Z";
          last_login := None;
          needs_password_reset := None |})), [])
  /\ Api.invoke demoBackend (Api.UpdateMemberProfile "u1" ∅) []
     = (Thrown (mkError "Failed to fetch"),
        [Sent {| table := "member_profiles";
                 steps := [update ∅; eq "user_id" (SStr "u1");
                           select None; single] |};
         World.ConsoleError "API Error - updateMemberProfile:"
           "Failed to fetch"])
  /\ ~ (forall (be : Backend) (c : Api.Call) (tr : Trace),
          Api.shouldUseDemoMode (env be) = true ->
          failsInDemoMode tr (Api.invoke be c tr)).
Proof.
  split; [reflexivity|]. split; [vm_compute; reflexivity|].
  split; [vm_compute; reflexivity|].
  intros H.
  destruct (H demoBackend (Api.CreateMemberProfile "u1" "Ann") []
              eq_refl) as [Hthrown _].
  vm_compute in Hthrown. discriminate Hthrown.
Qed.

(** C2, amended.  When the demo-mode predicate is true, every operation of
    [cmsApi], and the operations [getMemberProfile], [getAllMembers],
    [getLodgeDocuments] and [getMeetingMinutes] of [api], fail at once with
    the error "Demo mode - no database connection" and hand no query to the
    client; [createMemberProfile] returns a profile made on the spot, and
    hands no query to the client either. *)
Theorem demo_guard_of_guarded_operations :
  forall be : Backend,
    Api.shouldUseDemoMode (env be) = true ->
    (forall (c : CmsApi.Call) (tr : Trace),
       failsInDemoMode tr (CmsApi.invoke be c tr))
    /\ (forall (c : Api.Call) (tr : Trace),
          apiRead c = true -> failsInDemoMode tr (Api.invoke be c tr))
    /\ (forall (userId fullName : string) (tr : Trace),
          exists p,
            Api.invoke be (Api.CreateMemberProfile userId fullName) tr
            = (Returned (VRow (OProfile p)), tr)).
Proof.
  intros be Hdemo. repeat split.
  - apply (guarded_failsInDemoMode tr), cms_guarded.
    rewrite cms_shouldUseDemoMode. exact Hdemo.
  - apply (guarded_failsInDemoMode tr), cms_guarded.
    rewrite cms_shouldUseDemoMode. exact Hdemo.
  - apply (guarded_failsInDemoMode tr), api_read_guarded; assumption.
  - apply (guarded_failsInDemoMode tr), api_read_guarded; assumption.
  - intros userId fullName tr.
    destruct (createMemberProfile_demo be userId fullName tr Hdemo)
      as (p & Hp & _).
    exists p. exact Hp.
Qed.

Lemma demo_guard_of_guarded_operations_witness :
  Api.shouldUseDemoMode (env demoBackend) = true
  /\ failsInDemoMode []
       (CmsApi.invoke demoBackend (CmsApi.DeleteEvent "e1") [])
  /\ failsInDemoMode [] (Api.invoke demoBackend Api.GetAllMembers []).
Proof.
  split; [reflexivity|]. split.
  - apply (proj1 (demo_guard_of_guarded_operations demoBackend eq_refl)).
  - apply (proj1 (proj2 (demo_guard_of_guarded_operations demoBackend
                           eq_refl))).
    reflexivity.
Defined.

(** C3.  When the connection configuration is absent (the URL or the public
    key is missing), every read operation of [api] ([getMemberProfile],
    [getAllMembers], [getLodgeDocuments], [getMeetingMinutes]) and of
    [cmsApi] (the [get...] operations) fails with the demo-mode error and
    reaches no network; [createMemberProfile] returns a profile made on the
    spot for the given user and name, with status "pending", and reaches no
    network. *)
Theorem absent_configuration_reads_fail_create_synthesizes :
  forall be : Backend,
    configurationAbsent (env be) ->
    (forall (c : Api.Call) (tr : Trace),
       apiRead c = true -> failsInDemoMode tr (Api.invoke be c tr))
    /\ (forall (c : CmsApi.Call) (tr : Trace),
          cmsRead c = true -> failsInDemoMode tr (CmsApi.invoke be c tr))
    /\ (forall (userId fullName : string) (tr : Trace),
          exists p,
            Api.invoke be (Api.CreateMemberProfile userId fullName) tr
            = (Returned (VRow (OProfile p)), tr)
            /\ status p = "pending"
            /\ user_id p = userId /\ full_name p = fullName).
Proof.
  intros be Habsent.
  pose proof (absent_shouldUseDemoMode _ Habsent) as Hdemo.
  split; [|split].
  - intros c tr Hread.
    apply (guarded_failsInDemoMode tr), api_read_guarded; assumption.
  - intros c tr _.
    apply (guarded_failsInDemoMode tr), cms_guarded.
    rewrite cms_shouldUseDemoMode. exact Hdemo.
  - intros userId fullName tr.
    destruct (createMemberProfile_demo be userId fullName tr Hdemo)
      as (p & Hp & Hstatus & Huser & Hname & _).
    exists p. auto.
Qed.

Lemma absent_configuration_reads_fail_create_synthesizes_witness :
  configurationAbsent (env demoBackend)
  /\ failsInDemoMode []
       (Api.invoke demoBackend (Api.GetMemberProfile "u1") [])
  /\ failsInDemoMode [] (CmsApi.invoke demoBackend CmsApi.GetEvents []).
Proof.
  assert (Habsent : configurationAbsent (env demoBackend))
    by (left; reflexivity).
  split; [exact Habsent|]. split.
  - apply (proj1 (absent_configuration_reads_fail_create_synthesizes
                    demoBackend Habsent)).
    reflexivity.
  - apply (proj1 (proj2 (absent_configuration_reads_fail_create_synthesizes
                           demoBackend Habsent))).
    reflexivity.
Defined.

(** ** The bounds of the calls *)

(** Open the operation at hand, decide its guard by [H] and stop at the
    race of its query against the timer. *)
Ltac run_connected H :=
  autounfold with operations; rewrite ?H;
  unfold try_catch, bind, when, issue, Api.withTimeout, CmsApi.withTimeout;
  cbv beta iota zeta.

Lemma api_times_out (be : Backend) (c : Api.Call) (ms : N) (tr : Trace) :
  Api.shouldUseDemoMode (env be) = false ->
  apiBound c = Some ms ->
  (forall q, late (execute be q) ms) ->
  fst (Api.invoke be c tr) = Thrown (timeoutError ms).
Proof.
  intros Hdemo Hbound Hlate.
  destruct c; simpl in Hbound; try discriminate Hbound;
    injection Hbound as <-; run_connected Hdemo;
    rewrite (race_late _ _ _ (Hlate _)); reflexivity.
Qed.

Lemma api_answers (be : Backend) (c : Api.Call) (ms : N) (tr : Trace)
    (r : Response) :
  Api.shouldUseDemoMode (env be) = false ->
  apiBound c = Some ms ->
  (forall q, fulfilledBefore (execute be q) ms r) ->
  error r = None ->
  exists v, fst (Api.invoke be c tr) = Returned v.
Proof.
  intros Hdemo Hbound Hquick Herror.
  destruct c; simpl in Hbound; try discriminate Hbound;
    injection Hbound as <-; run_connected Hdemo;
    match goal with
    | |- context [Promise_race (execute be ?q) (rejectAfter ?ms ?e)] =>
        destruct (race_fulfilledBefore _ ms r e (Hquick q) eq_refl)
          as [t ->]
    end;
    cbn [await fst]; rewrite Herror; eexists; reflexivity.
Qed.

Lemma cms_times_out (be : Backend) (c : CmsApi.Call) (tr : Trace) :
  CmsApi.shouldUseDemoMode (env be) = false ->
  (forall q, late (execute be q) 60000) ->
  fst (CmsApi.invoke be c tr) = Thrown (timeoutError 60000).
Proof.
  intros Hdemo Hlate.
  destruct c; run_connected Hdemo;
    rewrite (race_late _ _ _ (Hlate _)); reflexivity.
Qed.

Lemma cms_answers (be : Backend) (c : CmsApi.Call) (tr : Trace)
    (r : Response) :
  CmsApi.shouldUseDemoMode (env be) = false ->
  (forall q, fulfilledBefore (execute be q) 60000 r) ->
  error r = None ->
  exists v, fst (CmsApi.invoke be c tr) = Returned v.
Proof.
  intros Hdemo Hquick Herror.
  destruct c; run_connected Hdemo;
    match goal with
    | |- context [Promise_race (execute be ?q) (rejectAfter ?ms ?e)] =>
        destruct (race_fulfilledBefore _ ms r e (Hquick q) eq_refl)
          as [t ->]
    end;
    cbn [await fst]; rewrite Herror; eexists; reflexivity.
Qed.

Lemma api_overdue (be : Backend) (c : Api.Call) (ms : N) (tr : Trace) :
  Api.shouldUseDemoMode (env be) = false ->
  apiBound c = Some ms ->
  (forall q, overdue (execute be q) ms) ->
  fst (Api.invoke be c tr) = Thrown (timeoutError ms).
Proof.
  intros Hdemo Hbound Hlate.
  destruct c; simpl in Hbound; try discriminate Hbound;
    injection Hbound as <-; run_connected Hdemo;
    match goal with
    | |- context [Promise_race (execute be ?q) (rejectAfter ?ms ?e)] =>
        rewrite (race_overdue (execute be q) ms e (Hlate q))
    end;
    reflexivity.
Qed.

Lemma cms_overdue (be : Backend) (c : CmsApi.Call) (tr : Trace) :
  CmsApi.shouldUseDemoMode (env be) = false ->
  (forall q, overdue (execute be q) 60000) ->
  fst (CmsApi.invoke be c tr) = Thrown (timeoutError 60000).
Proof.
  intros Hdemo Hlate.
  destruct c; run_connected Hdemo;
    match goal with
    | |- context [Promise_race (execute be ?q) (rejectAfter ?ms ?e)] =>
        rewrite (race_overdue (execute be q) ms e (Hlate q))
    end;
    reflexivity.
Qed.

(** C5.  The bound of a wrapped query is the one its call gives, and when
    the call gives none, 90 s for the helper of [api] and 60 s for the
    helper of [cmsApi] (every call of [cmsApi] gives none); it is a delay
    [setTimeout] can wait for (below 2^31 ms).  A query that has not
    settled before its bound (it never settles, or settles at the bound or
    later) makes [withTimeout] reject, at the bound, with the error
    "Request timeout after <timeoutMs>ms": awaiting it throws that error
    and returns no result.  A query that settles before the bound decides
    the outcome itself, with its own result or its own error.  So, with a
    connection configured, every operation whose query has not settled
    before its bound throws the timeout error of that bound. *)
Theorem withTimeout_rejects_late_query :
  forall (T : Type) (query : Promise T) (given : option N),
    ((default 90000%N given < 2147483648)%N ->
     (overdue query (default 90000%N given) ->
      Api.withTimeout query given
      = Some (default 90000%N given,
              Rejected (timeoutError (default 90000%N given)))
      /\ forall tr : Trace,
           await (Api.withTimeout query given) tr
           = (Thrown (timeoutError (default 90000%N given)), tr))
     /\ (forall t s,
           query = Some (t, s) -> (t < default 90000%N given)%N ->
           Api.withTimeout query given = Some (t, s)))
    /\ ((default 60000%N given < 2147483648)%N ->
        (overdue query (default 60000%N given) ->
         CmsApi.withTimeout query given
         = Some (default 60000%N given,
                 Rejected (timeoutError (default 60000%N given)))
         /\ forall tr : Trace,
              await (CmsApi.withTimeout query given) tr
              = (Thrown (timeoutError (default 60000%N given)), tr))
        /\ (forall t s,
              query = Some (t, s) -> (t < default 60000%N given)%N ->
              CmsApi.withTimeout query given = Some (t, s)))
    /\ (forall (be : Backend) (tr : Trace),
          Api.shouldUseDemoMode (env be) = false ->
          (forall c : CmsApi.Call,
             (forall q, overdue (execute be q) 60000) ->
             fst (CmsApi.invoke be c tr) = Thrown (timeoutError 60000))
          /\ (forall (c : Api.Call) (ms : N),
                apiBound c = Some ms ->
                (forall q, overdue (execute be q) ms) ->
                fst (Api.invoke be c tr) = Thrown (timeoutError ms))).
Proof.
  intros T query given. split; [|split].
  - intros Hfits.
    pose proof (setTimeout_delay_fits _ Hfits) as Hdelay. split.
    + intros Hlate.
      assert (Hout : Api.withTimeout query given
                     = Some (default 90000%N given,
                             Rejected (timeoutError (default 90000%N given)))).
      { unfold Api.withTimeout. cbv zeta. rewrite race_overdue.
        - rewrite Hdelay. reflexivity.
        - rewrite Hdelay. exact Hlate. }
      split; [exact Hout|]. intros tr. rewrite Hout. reflexivity.
    + intros t s Hq Hlt. unfold Api.withTimeout. cbv zeta.
      rewrite (race_early query _ t s); [exact Hq|exact Hq|].
      rewrite Hdelay. exact Hlt.
  - intros Hfits.
    pose proof (setTimeout_delay_fits _ Hfits) as Hdelay. split.
    + intros Hlate.
      assert (Hout : CmsApi.withTimeout query given
                     = Some (default 60000%N given,
                             Rejected (timeoutError (default 60000%N given)))).
      { unfold CmsApi.withTimeout. cbv zeta. rewrite race_overdue.
        - rewrite Hdelay. reflexivity.
        - rewrite Hdelay. exact Hlate. }
      split; [exact Hout|]. intros tr. rewrite Hout. reflexivity.
    + intros t s Hq Hlt. unfold CmsApi.withTimeout. cbv zeta.
      rewrite (race_early query _ t s); [exact Hq|exact Hq|].
      rewrite Hdelay. exact Hlt.
  - intros be tr Hdemo. split.
    + intros c Hlate. apply cms_overdue; [|exact Hlate].
      rewrite cms_shouldUseDemoMode. exact Hdemo.
    + intros c ms Hbound Hlate. apply api_overdue; assumption.
Qed.

(** A query of [cmsApi] that never answers, its call giving no bound: the
    timer's error after 60 s; the same query under the helper of [api]:
    after 90 s; an answer after 120 ms under a bound of 60 s: the answer;
    [getEvents] on a database that answers after 75 s: the timer's
    error. *)
Lemma withTimeout_rejects_late_query_witness :
  CmsApi.withTimeout (None : Promise Response) None
    = Some (60000%N, Rejected (mkError "Request timeout after 60000ms"))
  /\ Api.withTimeout (None : Promise Response) None
    = Some (90000%N, Rejected (mkError "Request timeout after 90000ms"))
  /\ Api.withTimeout (execute quickBackend (from "events")) (Some 60000%N)
    = Some (120%N, Fulfilled {| data := VArray []; error := None |})
  /\ fst (CmsApi.invoke slowBackend CmsApi.GetEvents [])
    = Thrown (mkError "Request timeout after 60000ms").
Proof.
  split; [|split; [|split]].
  - apply (proj1 (proj1 (proj2 (withTimeout_rejects_late_query Response None
                                  None))
                    eq_refl)).
    exact I.
  - apply (proj1 (proj1 (withTimeout_rejects_late_query Response None None)
                    eq_refl)).
    exact I.
  - apply (proj2 (proj1 (withTimeout_rejects_late_query Response
                           (execute quickBackend (from "events"))
                           (Some 60000%N))
                    eq_refl)
             120%N (Fulfilled {| data := VArray []; error := None |})).
    + reflexivity.
    + reflexivity.
  - apply (proj1 (proj2 (proj2 (withTimeout_rejects_late_query Response None
                                  None))
                    slowBackend [] eq_refl) CmsApi.GetEvents).
    intros q. simpl. lia.
Defined.

(** C4, as stated, fails.  The database of [slowBackend] answers every
    query after 75 s, within a bound of 90 s.  The listings
    [getMeetingMinutes], [getEvents] and [getNewsArticles] fail all the
    same, with the timeout error of a 60 s bound; only [getAllMembers]
    waits long enough to return the answer. *)
Lemma listing_operations_bounded_by_60s :
  fst (Api.invoke slowBackend Api.GetMeetingMinutes [])
    = Thrown (mkError "Request timeout after 60000ms")
  /\ fst (CmsApi.invoke slowBackend CmsApi.GetEvents [])
    = Thrown (mkError "Request timeout after 60000ms")
  /\ fst (CmsApi.invoke slowBackend CmsApi.GetNewsArticles [])
    = Thrown (mkError "Request timeout after 60000ms")
  /\ fst (Api.invoke slowBackend Api.GetAllMembers [])
    = Returned (VArray []).
Proof. repeat split; vm_compute; reflexivity. Qed.

(** C4, amended.  The bound of a wrapped query is fixed per call:
    90 seconds for [getAllMembers], 60 seconds for every other operation of
    [api] that wraps a query and for every operation of [cmsApi], listing
    or not.  With a connection configured, a call whose query has not
    settled at its bound throws the timeout error of that bound, and a
    call whose query is answered without error before its bound
    returns. *)
Theorem timeout_bound_per_call :
  forall be : Backend,
    Api.shouldUseDemoMode (env be) = false ->
    (forall (c : Api.Call) (ms : N) (tr : Trace),
       apiBound c = Some ms ->
       ((forall q, late (execute be q) ms) ->
          fst (Api.invoke be c tr) = Thrown (timeoutError ms))
       /\ (forall r : Response,
             (forall q, fulfilledBefore (execute be q) ms r) ->
             error r = None ->
             exists v, fst (Api.invoke be c tr) = Returned v))
    /\ (forall (c : CmsApi.Call) (tr : Trace),
          ((forall q, late (execute be q) 60000) ->
             fst (CmsApi.invoke be c tr) = Thrown (timeoutError 60000))
          /\ (forall r : Response,
                (forall q, fulfilledBefore (execute be q) 60000 r) ->
                error r = None ->
                exists v, fst (CmsApi.invoke be c tr) = Returned v)).
Proof.
  intros be Hdemo. split.
  - intros c ms tr Hbound. split.
    + intros Hlate. apply api_times_out; assumption.
    + intros r Hquick Herror. apply (api_answers be c ms tr r); assumption.
  - intros c tr. split.
    + intros Hlate. apply cms_times_out; [|assumption].
      rewrite cms_shouldUseDemoMode. exact Hdemo.
    + intros r Hquick Herror. apply (cms_answers be c tr r); [|assumption..].
      rewrite cms_shouldUseDemoMode. exact Hdemo.
Qed.

Lemma timeout_bound_per_call_witness :
  Api.shouldUseDemoMode (env slowBackend) = false
  /\ apiBound Api.GetMeetingMinutes = Some 60000%N
  /\ (forall q, late (execute slowBackend q) 60000)
  /\ fst (Api.invoke slowBackend Api.GetMeetingMinutes [])
     = Thrown (timeoutError 60000)
  /\ apiBound Api.GetAllMembers = Some 90000%N
  /\ exists v, fst (Api.invoke slowBackend Api.GetAllMembers []) = Returned v.
Proof.
  assert (Hlate : forall q, late (execute slowBackend q) 60000)
    by (intros q; simpl; lia).
  split; [reflexivity|]. split; [reflexivity|]. split; [exact Hlate|].
  split; [|split; [reflexivity|]].
  - apply (proj1 (proj1 (timeout_bound_per_call slowBackend eq_refl)
                    Api.GetMeetingMinutes 60000%N [] eq_refl)).
    exact Hlate.
  - apply (proj2 (proj1 (timeout_bound_per_call slowBackend eq_refl)
                    Api.GetAllMembers 90000%N [] eq_refl)
             {| data := VArray []; error := None |}).
    + intros q; simpl; split; [lia|reflexivity].
    + reflexivity.
Defined.

(* ===================================================================== *)
(** * Properties of the session tracker *)
(* ===================================================================== *)

Section SessionTracker.

Import AuthContext.

Variable be : Provider.

Lemma currentProfile_stored (w : World) (p : MemberProfile)
    (events : list Event) :
  currentProfile (stored w p events) = Some p.
Proof.
  unfold currentProfile, stored; simpl.
  apply list_lookup_middle; reflexivity.
Qed.

Lemma strict_eq_true (x : option string) (lit : string) :
  strict_eq x lit = true <-> x = Some lit.
Proof.
  destruct x as [s|]; simpl.
  - rewrite String.eqb_eq. split; [intros ->; reflexivity|congruence].
  - split; discriminate.
Qed.

(** How a profile load ends, by how the fetch of the real profile
    settles. *)
Lemma loadProfile_real (u : User) (w : World) (t : N) (p : MemberProfile) :
  api_getMemberProfile be (uid u) = Some (t, Fulfilled (Some p)) ->
  loadProfile be u w
  = (Returned tt, stored w p [CalledGetMemberProfile (uid u)]).
Proof.
  intros H. unfold loadProfile, loadProfileWhile, getMemberProfile, quiet, try_catch, bind, await.
  simpl. rewrite H. reflexivity.
Qed.

Lemma loadProfile_null (u : User) (w : World) (t : N) :
  api_getMemberProfile be (uid u) = Some (t, Fulfilled None) ->
  loadProfile be u w
  = (Returned tt,
     stored w (createDemoProfile be u) [CalledGetMemberProfile (uid u)]).
Proof.
  intros H. unfold loadProfile, loadProfileWhile, getMemberProfile, quiet, try_catch, bind, await.
  simpl. rewrite H. reflexivity.
Qed.

Lemma loadProfile_failed (u : User) (w : World) (t : N) (e : Error) :
  api_getMemberProfile be (uid u) = Some (t, Rejected e) ->
  loadProfile be u w
  = (Returned tt,
     stored w (createDemoProfile be u)
       [CalledGetMemberProfile (uid u);
        ConsoleWarn "Could not load real profile, using demo profile:"
          (message e)]).
Proof.
  intros H. unfold loadProfile, loadProfileWhile, getMemberProfile, quiet, try_catch, bind, await.
  simpl. rewrite H. unfold stored; simpl.
  rewrite <- app_assoc. reflexivity.
Qed.

Lemma loadProfile_pending (u : User) (w : World) :
  api_getMemberProfile be (uid u) = None ->
  fst (loadProfile be u w) = Suspended
  /\ profile (state (snd (loadProfile be u w))) = profile (state w).
Proof.
  intros H. unfold loadProfile, loadProfileWhile, getMemberProfile, quiet, try_catch, bind, await.
  simpl. rewrite H. split; reflexivity.
Qed.


Lemma loadProfile_placeholder (u : User) (w : World) :
  noRealProfile be u ->
  exists events,
    loadProfile be u w
    = (Returned tt, stored w (createDemoProfile be u) events).
Proof.
  unfold noRealProfile. intros H.
  destruct (api_getMemberProfile be (uid u)) as [[t [[p|]|e]]|] eqn:E;
    try contradiction.
  - eexists. apply (loadProfile_null u w t E).
  - eexists. apply (loadProfile_failed u w t e E).
Qed.

End SessionTracker.

Import AuthContext.

(** C1.  For an identity with no matching real profile ([getMemberProfile]
    fails or returns null), loading the profile, directly or through
    [refreshProfile] for the stored identity, completes and stores a
    placeholder profile for that identity whose status is "active" and
    whose role is "admin" exactly when the identity's email is
    "demo@radlettlodge.org", and "member" otherwise; for that email the
    position is "Worshipful Master". *)
Theorem placeholder_profile_for_identity_without_profile :
  forall (be : Provider) (u : User) (w : World) (r : Outcome unit * World),
    noRealProfile be u ->
    r = loadProfile be u w
    \/ (user (state w) = Some u /\ r = refreshProfile be w) ->
    fst r = Returned tt
    /\ exists p,
         currentProfile (snd r) = Some p
         /\ user_id p = uid u
         /\ status p = "active"
         /\ (role p = admin <-> email u = Some "demo@radlettlodge.org")
         /\ (role p = member <-> email u <> Some "demo@radlettlodge.org")
         /\ (email u = Some "demo@radlettlodge.org" ->
             position p = Some "Worshipful Master").
Proof.
  intros be u w r Hnone Hr.
  assert (Hload : r = loadProfile be u w).
  { destruct Hr as [Hr|[Hu Hr]]; [exact Hr|].
    rewrite Hr. unfold refreshProfile, refreshProfileOf, bind, get. rewrite Hu. reflexivity. }
  destruct (loadProfile_placeholder be u w Hnone) as [events Hev].
  rewrite Hload, Hev. split; [reflexivity|].
  exists (createDemoProfile be u).
  split; [apply currentProfile_stored|].
  split; [reflexivity|]. split; [reflexivity|].
  pose proof (strict_eq_true (email u) "demo@radlettlodge.org") as Heq.
  unfold createDemoProfile; simpl.
  destruct (strict_eq (email u) "demo@radlettlodge.org").
  - assert (Hdemo : email u = Some "demo@radlettlodge.org")
      by (apply Heq; reflexivity).
    repeat split; try congruence; try discriminate.
  - assert (Hother : email u <> Some "demo@radlettlodge.org")
      by (intros Hdemo; apply Heq in Hdemo; discriminate).
    repeat split; try congruence; try discriminate.
Qed.

(** The identity of the end-to-end example, with no real profile:
    [refreshProfile] stores an active admin profile, Worshipful Master. *)
Lemma placeholder_profile_for_identity_without_profile_witness :
  noRealProfile noProfileProvider demoUser
  /\ exists p,
       currentProfile
         (snd (refreshProfile noProfileProvider
                 (signedInWorld demoUser annProfile))) = Some p
       /\ role p = admin /\ status p = "active"
       /\ position p = Some "Worshipful Master".
Proof.
  assert (Hnone : noRealProfile noProfileProvider demoUser) by exact I.
  split; [exact Hnone|].
  destruct (placeholder_profile_for_identity_without_profile
              noProfileProvider demoUser (signedInWorld demoUser annProfile)
              (refreshProfile noProfileProvider
                 (signedInWorld demoUser annProfile))
              Hnone (or_intror (conj eq_refl eq_refl)))
    as (_ & p & Hp & _ & Hstatus & Hadmin & _ & Hposition).
  exists p. split; [exact Hp|]. split; [|split].
  - apply Hadmin. reflexivity.
  - exact Hstatus.
  - apply Hposition. reflexivity.
Defined.

(** ** Session-change events *)

(** Once the effect is cleaned up, the callback leaves everything as it
    is. *)
Lemma onAuthStateChange_after_unmount (be : Provider)
    (event : AuthChangeEvent) (session : option Session) (w : World) :
  mounted w = false ->
  onAuthStateChange be event session w = (Returned tt, w).
Proof.
  intros H. unfold onAuthStateChange, onAuthStateChangeWhile, bind, get. rewrite H. reflexivity.
Qed.



(** C7.  Whatever a mounted tracker holds, handling a signed-out event
    leaves no identity and no profile in it. *)
Theorem signed_out_clears_identity_and_profile :
  forall (be : Provider) (session : option Session) (w : World),
    mounted w = true ->
    let r := onAuthStateChange be SIGNED_OUT session w in
    fst r = Returned tt
    /\ user (state (snd r)) = None
    /\ profile (state (snd r)) = None
    /\ currentProfile (snd r) = None.
Proof.
  intros be session w Hmounted.
  unfold onAuthStateChange, onAuthStateChangeWhile, bind, get, try_catch.
  rewrite Hmounted. destruct session; repeat split.
Qed.

Lemma signed_out_clears_identity_and_profile_witness :
  mounted (signedInWorld annUser annProfile) = true
  /\ user (state (snd (onAuthStateChange noProfileProvider SIGNED_OUT None
                         (signedInWorld annUser annProfile)))) = None
  /\ profile (state (snd (onAuthStateChange noProfileProvider SIGNED_OUT None
                            (signedInWorld annUser annProfile)))) = None.
Proof.
  split; [reflexivity|].
  destruct (signed_out_clears_identity_and_profile noProfileProvider None
              (signedInWorld annUser annProfile) eq_refl)
    as (_ & Huser & Hprofile & _).
  split; [exact Huser|exact Hprofile].
Defined.

(** C8.  Handling a token-refreshed event that carries a session user, a
    mounted tracker takes that user as its identity and loads no profile:
    the profile cell keeps the reference it held, the objects are
    untouched, and nothing is asked of the outside. *)
Theorem token_refreshed_updates_identity_only :
  forall (be : Provider) (s : Session) (w : World),
    mounted w = true ->
    let r := onAuthStateChange be TOKEN_REFRESHED (Some s) w in
    fst r = Returned tt
    /\ user (state (snd r)) = Some (Types.user s)
    /\ profile (state (snd r)) = profile (state w)
    /\ heap (snd r) = heap w
    /\ log (snd r) = log w.
Proof.
  intros be s w Hmounted.
  unfold onAuthStateChange, onAuthStateChangeWhile, bind, get, try_catch.
  rewrite Hmounted. repeat split.
Qed.

Lemma token_refreshed_updates_identity_only_witness :
  mounted (signedInWorld demoUser annProfile) = true
  /\ user (state (snd (onAuthStateChange noProfileProvider TOKEN_REFRESHED
                         (Some annSession)
                         (signedInWorld demoUser annProfile))))
     = Some annUser
  /\ profile (state (snd (onAuthStateChange noProfileProvider TOKEN_REFRESHED
                            (Some annSession)
                            (signedInWorld demoUser annProfile))))
     = Some 0.
Proof.
  split; [reflexivity|].
  destruct (token_refreshed_updates_identity_only noProfileProvider
              annSession (signedInWorld demoUser annProfile) eq_refl)
    as (_ & Huser & Hprofile & _).
  split; [exact Huser|exact Hprofile].
Defined.

(** ** Signing out *)

Lemma signOut_succeeded (be : Provider) (w : World) (t : N) :
  auth_signOut be = Some (t, Fulfilled None) ->
  signOut be w
  = (Returned tt,
     {| state := {| user := None; profile := None;
                    loading := loading (state w); error := None |};
        mounted := mounted w; heap := heap w;
        log := log w ++ [CalledSignOut] |}).
Proof.
  intros H. unfold signOut, try_catch, bind, await. simpl. rewrite H.
  reflexivity.
Qed.

Lemma signOut_failed (be : Provider) (w : World) (e : Error) :
  signOutFails be e ->
  signOut be w
  = (Thrown e,
     {| state := {| user := user (state w); profile := profile (state w);
                    loading := loading (state w);
                    error := Some "Failed to sign out" |};
        mounted := mounted w; heap := heap w;
        log := log w ++ [CalledSignOut;
                         ConsoleError "Error signing out:" (message e)] |}).
Proof.
  unfold signOutFails. intros H.
  unfold signOut, try_catch, bind, await. simpl.
  destruct (auth_signOut be) as [[t [[e'|]|e']]|];
    try contradiction; subst e'; simpl;
    rewrite <- app_assoc; reflexivity.
Qed.

(** C9.  [signOut] calls the provider's sign-out.  When the provider
    succeeds, the action returns with identity and profile cleared.  When
    the provider fails (it answers with an error, or its promise is
    rejected), the action sets the last-error string, "Failed to sign
    out", and throws the provider's error to the caller. *)
Theorem signOut_delegates_then_clears_or_fails :
  forall (be : Provider) (w : World),
    (exists events,
       log (snd (signOut be w)) = log w ++ CalledSignOut :: events)
    /\ (forall t : N,
          auth_signOut be = Some (t, Fulfilled None) ->
          fst (signOut be w) = Returned tt
          /\ user (state (snd (signOut be w))) = None
          /\ profile (state (snd (signOut be w))) = None)
    /\ (forall e : Error,
          signOutFails be e ->
          fst (signOut be w) = Thrown e
          /\ error (state (snd (signOut be w))) = Some "Failed to sign out").
Proof.
  intros be w. split; [|split].
  - unfold signOut, try_catch, bind, await. simpl.
    destruct (auth_signOut be) as [[t [[e|]|e]]|]; simpl;
      rewrite <- ?app_assoc; eexists; reflexivity.
  - intros t H. rewrite (signOut_succeeded be w t H). repeat split.
  - intros e H. rewrite (signOut_failed be w e H). repeat split.
Qed.

Lemma signOut_delegates_then_clears_or_fails_witness :
  signOutFails failingProvider (mkError "Network request failed")
  /\ fst (signOut failingProvider (signedInWorld annUser annProfile))
     = Thrown (mkError "Network request failed")
  /\ error (state (snd (signOut failingProvider
                          (signedInWorld annUser annProfile))))
     = Some "Failed to sign out"
  /\ user (state (snd (signOut noProfileProvider
                         (signedInWorld annUser annProfile)))) = None.
Proof.
  assert (Hfails : signOutFails failingProvider
                     (mkError "Network request failed")) by reflexivity.
  split; [exact Hfails|].
  destruct (proj2 (proj2 (signOut_delegates_then_clears_or_fails
                            failingProvider
                            (signedInWorld annUser annProfile)))
              _ Hfails) as (Hthrown & Herror).
  destruct (proj1 (proj2 (signOut_delegates_then_clears_or_fails
                            noProfileProvider
                            (signedInWorld annUser annProfile)))
              5%N eq_refl) as (_ & Huser & _).
  split; [exact Hthrown|]. split; [exact Herror|exact Huser].
Defined.

(** C10.  When the provider's sign-out fails, the tracker keeps its
    identity and its profile (the same reference, the same objects) and
    its loading flag: of the session state, only the error string has
    changed. *)
Theorem failed_signOut_keeps_identity_and_profile :
  forall (be : Provider) (w : World) (e : Error),
    signOutFails be e ->
    let w' := snd (signOut be w) in
    user (state w') = user (state w)
    /\ profile (state w') = profile (state w)
    /\ loading (state w') = loading (state w)
    /\ heap w' = heap w
    /\ mounted w' = mounted w
    /\ currentProfile w' = currentProfile w
    /\ error (state w') = Some "Failed to sign out".
Proof.
  intros be w e H. rewrite (signOut_failed be w e H). repeat split.
Qed.

Lemma failed_signOut_keeps_identity_and_profile_witness :
  signOutFails failingProvider (mkError "Network request failed")
  /\ user (state (snd (signOut failingProvider
                         (signedInWorld annUser annProfile))))
     = Some annUser
  /\ currentProfile (snd (signOut failingProvider
                            (signedInWorld annUser annProfile)))
     = Some annProfile.
Proof.
  assert (Hfails : signOutFails failingProvider
                     (mkError "Network request failed")) by reflexivity.
  split; [exact Hfails|].
  destruct (failed_signOut_keeps_identity_and_profile failingProvider
              (signedInWorld annUser annProfile) _ Hfails)
    as (Huser & _ & _ & _ & _ & Hprofile & _).
  split; [exact Huser|exact Hprofile].
Defined.

(* ===================================================================== *)
(** * Further properties of the data-access wrapper *)
(* ===================================================================== *)

(** Open the operation at hand down to the case distinctions it makes. *)
Ltac open_call :=
  autounfold with operations;
  unfold Api.deleteUserAndProfile, Api.askSession, Api.doFetch,
    Api.errorProperty;
  unfold try_catch, bind, when, issue, Api.withTimeout, CmsApi.withTimeout,
    Promise_race, rejectAfter, await, console_error, modify, throw, ret;
  cbv beta iota zeta; cbn [default].

(** Distinguish the cases of the innermost scrutinee, again and again. *)
Ltac split_cases :=
  repeat (match goal with
          | |- context [match ?x with _ => _ end] =>
              lazymatch x with
              | context [match _ with _ => _ end] => fail
              | _ => destruct x eqn:?
              end
          end; cbv beta iota).

Ltac network_of_trace :=
  unfold network; rewrite ?List.filter_app;
  cbn [List.filter isNetwork app]; rewrite ?app_nil_r.

Lemma cms_settles (be : Backend) (c : CmsApi.Call) (tr : Trace) :
  fst (CmsApi.invoke be c tr) <> Suspended.
Proof.
  destruct c; open_call; split_cases; simpl; discriminate.
Qed.

Lemma api_settles (be : Backend) (c : Api.Call) (tr : Trace) :
  (forall userId, c <> Api.DeleteUserAndProfile userId) ->
  fst (Api.invoke be c tr) <> Suspended.
Proof.
  intros Hc.
  destruct c; try (exfalso; eapply Hc; reflexivity);
    open_call; split_cases; simpl; discriminate.
Qed.

(** X1.  Whatever the database does (answer, refuse, fail, stay silent),
    a call of an operation that wraps a query returns or throws: it is
    never left waiting.  [deleteUserAndProfile], which wraps nothing, does
    stay waiting when its endpoint never answers. *)
Theorem wrapped_calls_always_settle :
  forall (be : Backend) (tr : Trace),
    (forall c : CmsApi.Call, fst (CmsApi.invoke be c tr) <> Suspended)
    /\ (forall c : Api.Call,
          (forall userId, c <> Api.DeleteUserAndProfile userId) ->
          fst (Api.invoke be c tr) <> Suspended)
    /\ (forall (userId : string) (t : N) (s : Session),
          getSession be = Some (t, Fulfilled (Some s)) ->
          (forall req, fetch be req = None) ->
          fst (Api.invoke be (Api.DeleteUserAndProfile userId) tr)
          = Suspended).
Proof.
  intros be tr. split; [|split].
  - intros c. apply cms_settles.
  - intros c Hc. apply api_settles, Hc.
  - intros userId t s Hsession Hfetch.
    open_call. rewrite Hsession. cbv beta iota. rewrite Hfetch.
    reflexivity.
Qed.

Lemma wrapped_calls_always_settle_witness :
  fst (Api.invoke hangingEndpointBackend Api.GetAllMembers [])
    <> Suspended
  /\ fst (Api.invoke hangingEndpointBackend (Api.DeleteUserAndProfile "u2") [])
     = Suspended.
Proof.
  split.
  - apply (proj1 (proj2 (wrapped_calls_always_settle
                           hangingEndpointBackend []))).
    intros userId; discriminate.
  - apply (proj2 (proj2 (wrapped_calls_always_settle
                           hangingEndpointBackend []))
             "u2" 1%N annSession); [reflexivity|].
    intros req; reflexivity.
Defined.

(** X2.  No call retries: a call of an operation of [cmsApi], or of an
    operation of [api] that wraps a query, hands at most one query to the
    client and does nothing else on the network; [deleteUserAndProfile]
    asks for the session once and posts at most one request. *)
Theorem at_most_one_request_per_call :
  forall (be : Backend) (tr : Trace),
    (forall c : CmsApi.Call,
       network (snd (CmsApi.invoke be c tr)) = network tr
       \/ exists q,
            network (snd (CmsApi.invoke be c tr)) = network tr ++ [Sent q])
    /\ (forall c : Api.Call,
          (forall userId, c <> Api.DeleteUserAndProfile userId) ->
          network (snd (Api.invoke be c tr)) = network tr
          \/ exists q,
               network (snd (Api.invoke be c tr)) = network tr ++ [Sent q])
    /\ (forall userId : string,
          network (snd (Api.invoke be (Api.DeleteUserAndProfile userId) tr))
          = network tr ++ [AskedSession]
          \/ exists req,
               network (snd (Api.invoke be (Api.DeleteUserAndProfile userId)
                               tr))
               = network tr ++ [AskedSession; Fetched req]).
Proof.
  intros be tr. split; [|split].
  - intros c. destruct c; open_call; split_cases; cbn [snd];
      network_of_trace;
      solve [left; reflexivity | right; eexists; reflexivity].
  - intros c Hc.
    destruct c; try (exfalso; eapply Hc; reflexivity);
      open_call; split_cases; cbn [snd]; network_of_trace;
      solve [left; reflexivity | right; eexists; reflexivity].
  - intros userId. open_call; split_cases; cbn [snd]; network_of_trace;
      rewrite <- ?app_assoc;
      solve [left; reflexivity | right; eexists; reflexivity].
Qed.

Lemma at_most_one_request_per_call_witness :
  network (snd (Api.invoke offlineBackend Api.GetAllMembers [])) = network []
  \/ exists q,
       network (snd (Api.invoke offlineBackend Api.GetAllMembers []))
       = network [] ++ [Sent q].
Proof.
  apply (proj1 (proj2 (at_most_one_request_per_call offlineBackend []))
           Api.GetAllMembers).
  intros userId; discriminate.
Defined.

(** X3.  Every failure is logged and thrown on: when a call throws, the
    last thing it did was to write the thrown error's message to the
    console; when it returns, it has written nothing to the console. *)
Theorem failure_logged_success_silent :
  forall (be : Backend) (tr : Trace),
    (forall (c : CmsApi.Call) (e : Error),
       fst (CmsApi.invoke be c tr) = Thrown e ->
       exists label before,
         snd (CmsApi.invoke be c tr)
         = before ++ [World.ConsoleError label (message e)])
    /\ (forall (c : Api.Call) (e : Error),
          fst (Api.invoke be c tr) = Thrown e ->
          exists label before,
            snd (Api.invoke be c tr)
            = before ++ [World.ConsoleError label (message e)])
    /\ (forall (c : CmsApi.Call) (v : Value),
          fst (CmsApi.invoke be c tr) = Returned v ->
          console (snd (CmsApi.invoke be c tr)) = console tr)
    /\ (forall (c : Api.Call) (v : Value),
          fst (Api.invoke be c tr) = Returned v ->
          console (snd (Api.invoke be c tr)) = console tr).
Proof.
  intros be tr. split; [|split; [|split]].
  - intros c e. destruct c; open_call; split_cases; cbn [fst snd];
      intros H; try discriminate H; injection H as <-;
      eexists _, _; reflexivity.
  - intros c e. destruct c; open_call; split_cases; cbn [fst snd];
      intros H; try discriminate H; injection H as <-;
      eexists _, _; reflexivity.
  - intros c v. destruct c; open_call; split_cases; cbn [fst snd];
      intros H; try discriminate H;
      unfold console; rewrite ?List.filter_app;
      cbn [List.filter isNetwork negb app]; rewrite ?app_nil_r; reflexivity.
  - intros c v. destruct c; open_call; split_cases; cbn [fst snd];
      intros H; try discriminate H;
      unfold console; rewrite ?List.filter_app;
      cbn [List.filter isNetwork negb app]; rewrite ?app_nil_r; reflexivity.
Qed.

Lemma failure_logged_success_silent_witness :
  fst (CmsApi.invoke offlineBackend CmsApi.GetOfficers [])
  = Thrown (mkError "Failed to fetch")
  /\ exists label before,
       snd (CmsApi.invoke offlineBackend CmsApi.GetOfficers [])
       = before ++ [World.ConsoleError label "Failed to fetch"].
Proof.
  assert (H : fst (CmsApi.invoke offlineBackend CmsApi.GetOfficers [])
              = Thrown (mkError "Failed to fetch")) by reflexivity.
  split; [exact H|].
  apply (proj1 (failure_logged_success_silent offlineBackend [])
           CmsApi.GetOfficers (mkError "Failed to fetch") H).
Defined.

Lemma race_rejectedBefore {T} (p : Promise T) (ms : N) (e timer : Error) :
  rejectedBefore p ms e ->
  (ms < 2147483648)%N ->
  exists t, Promise_race p (rejectAfter ms timer) = Some (t, Rejected e).
Proof.
  intros Hp Hfits.
  destruct p as [[t [v|e']]|]; simpl in *; try tauto.
  destruct Hp as [Hlt ->]. exists t.
  rewrite (setTimeout_delay_fits ms Hfits).
  destruct (N.ltb_spec t ms); [reflexivity|lia].
Qed.

(** Decide the race of the query at hand by what is known of the
    database. *)
Ltac settle_query race H r :=
  match goal with
  | |- context [Promise_race (execute ?be ?q) (rejectAfter ?ms ?e)] =>
      let t := fresh "t" in
      destruct (race _ _ ms r e (H q) eq_refl) as [t ->]
  end.

(** X4.  A refusal of the database reaches the caller under the
    operation's own words: when the database answers a query in time with
    an error, the call throws an error whose message is the operation's
    text ("Failed to fetch events: " for [getEvents], and so on, as the
    two tables list them) followed by the database's message, and returns
    no data. *)
Theorem refusal_wrapped_in_operation_message :
  forall (be : Backend) (tr : Trace) (r : Response)
         (refusal : PostgrestError),
    Api.shouldUseDemoMode (env be) = false ->
    Supabase.error r = Some refusal ->
    (forall c : CmsApi.Call,
       (forall q, fulfilledBefore (execute be q) 60000 r) ->
       fst (CmsApi.invoke be c tr)
       = Thrown (mkError (cmsRefusalPrefix c +:+ pg_message refusal)))
    /\ (forall (c : Api.Call) (ms : N) (prefix : string),
          apiBound c = Some ms ->
          apiRefusalPrefix c = Some prefix ->
          (forall q, fulfilledBefore (execute be q) ms r) ->
          fst (Api.invoke be c tr)
          = Thrown (mkError (prefix +:+ pg_message refusal))).
Proof.
  intros be tr r refusal Hdemo Herror.
  assert (Hcms : CmsApi.shouldUseDemoMode (env be) = false)
    by (rewrite cms_shouldUseDemoMode; exact Hdemo).
  split.
  - intros c Hquick.
    destruct c; cbn [cmsRefusalPrefix]; run_connected Hcms;
      settle_query @race_fulfilledBefore Hquick r;
      cbn [await fst]; rewrite Herror; reflexivity.
  - intros c ms prefix Hbound Hprefix Hquick.
    destruct c; simpl in Hbound; try discriminate Hbound;
      injection Hbound as <-;
      cbn [apiRefusalPrefix] in Hprefix; injection Hprefix as <-;
      run_connected Hdemo; settle_query @race_fulfilledBefore Hquick r;
      cbn [await fst]; rewrite Herror; reflexivity.
Qed.

Lemma refusal_wrapped_in_operation_message_witness :
  fst (CmsApi.invoke refusingBackend CmsApi.GetEvents [])
  = Thrown (mkError "Failed to fetch events: permission denied")
  /\ fst (Api.invoke refusingBackend Api.GetAllMembers [])
     = Thrown (mkError "Failed to fetch members: permission denied").
Proof.
  pose proof (refusal_wrapped_in_operation_message refusingBackend []
                {| data := VNull;
                   Supabase.error :=
                     Some {| pg_message := "permission denied" |} |}
                {| pg_message := "permission denied" |} eq_refl eq_refl)
    as [Hcms Hapi].
  split.
  - apply (Hcms CmsApi.GetEvents).
    intros q. simpl. split; [lia|reflexivity].
  - apply (Hapi Api.GetAllMembers 90000%N "Failed to fetch members: "
             eq_refl eq_refl).
    intros q. simpl. split; [lia|reflexivity].
Defined.

(** X5.  A failure of the request itself is not wrapped: when the query's
    promise is rejected before the bound, the call throws that very
    error. *)
Theorem request_failure_thrown_unchanged :
  forall (be : Backend) (tr : Trace) (e : Error),
    Api.shouldUseDemoMode (env be) = false ->
    (forall c : CmsApi.Call,
       (forall q, rejectedBefore (execute be q) 60000 e) ->
       fst (CmsApi.invoke be c tr) = Thrown e)
    /\ (forall (c : Api.Call) (ms : N),
          apiBound c = Some ms ->
          (forall q, rejectedBefore (execute be q) ms e) ->
          fst (Api.invoke be c tr) = Thrown e).
Proof.
  intros be tr e Hdemo. split.
  - intros c Hfail.
    assert (Hcms : CmsApi.shouldUseDemoMode (env be) = false)
      by (rewrite cms_shouldUseDemoMode; exact Hdemo).
    destruct c; run_connected Hcms;
      settle_query @race_rejectedBefore Hfail e; reflexivity.
  - intros c ms Hbound Hfail.
    destruct c; simpl in Hbound; try discriminate Hbound;
      injection Hbound as <-; run_connected Hdemo;
      settle_query @race_rejectedBefore Hfail e; reflexivity.
Qed.

Lemma request_failure_thrown_unchanged_witness :
  Api.shouldUseDemoMode (env offlineBackend) = false
  /\ fst (Api.invoke offlineBackend (Api.DeleteMemberProfile "u2") [])
     = Thrown (mkError "Failed to fetch").
Proof.
  split; [reflexivity|].
  apply (proj2 (request_failure_thrown_unchanged offlineBackend []
                  (mkError "Failed to fetch") eq_refl)
           (Api.DeleteMemberProfile "u2") 60000%N eq_refl).
  intros q. simpl. split; [lia|reflexivity].
Defined.

(** X6.  The helper never waits beyond its bound: whatever the promise
    does, [withTimeout] settles, and no later than the bound.  The bound is
    reached, not undercut: for a promise that never settles the helper
    settles exactly at the bound, with the timeout error naming it.  The
    bound is the one given, and when none is given, 90000 ms for the helper
    of [api] and 60000 ms for the helper of [cmsApi]. *)
Theorem withTimeout_settles_within_bound :
  forall (T : Type) (query : Promise T) (given : option N),
    (exists t s,
       Api.withTimeout query given = Some (t, s)
       /\ (t <= default 90000%N given)%N)
    /\ (exists t s,
          CmsApi.withTimeout query given = Some (t, s)
          /\ (t <= default 60000%N given)%N)
    /\ ((default 90000%N given < 2147483648)%N ->
        Api.withTimeout (None : Promise T) given
        = Some (default 90000%N given,
                Rejected (timeoutError (default 90000%N given))))
    /\ ((default 60000%N given < 2147483648)%N ->
        CmsApi.withTimeout (None : Promise T) given
        = Some (default 60000%N given,
                Rejected (timeoutError (default 60000%N given))))
    /\ Api.withTimeout (None : Promise T) None
       = Some (90000%N, Rejected (mkError "Request timeout after 90000ms"))
    /\ CmsApi.withTimeout (None : Promise T) None
       = Some (60000%N, Rejected (mkError "Request timeout after 60000ms")).
Proof.
  intros T query given.
  unfold Api.withTimeout, CmsApi.withTimeout, Promise_race, rejectAfter.
  cbv zeta.
  pose proof (setTimeout_delay_le (default 90000%N given)) as Hapi.
  pose proof (setTimeout_delay_le (default 60000%N given)) as Hcms.
  split; [|split; [|split; [|split; [|split]]]].
  - destruct query as [[t s]|].
    + destruct (N.ltb_spec t (setTimeout_delay (default 90000%N given))).
      * exists t, s. split; [reflexivity|lia].
      * eexists _, _. split; [reflexivity|exact Hapi].
    + eexists _, _. split; [reflexivity|exact Hapi].
  - destruct query as [[t s]|].
    + destruct (N.ltb_spec t (setTimeout_delay (default 60000%N given))).
      * exists t, s. split; [reflexivity|lia].
      * eexists _, _. split; [reflexivity|exact Hcms].
    + eexists _, _. split; [reflexivity|exact Hcms].
  - intros Hfits. rewrite (setTimeout_delay_fits _ Hfits). reflexivity.
  - intros Hfits. rewrite (setTimeout_delay_fits _ Hfits). reflexivity.
  - reflexivity.
  - reflexivity.
Qed.

Lemma withTimeout_settles_within_bound_witness :
  Api.withTimeout (None : Promise Response) (Some 5000%N)
  = Some (5000%N, Rejected (mkError "Request timeout after 5000ms")).
Proof.
  apply (proj1 (proj2 (proj2 (withTimeout_settles_within_bound Response None
                                (Some 5000%N))))).
  reflexivity.
Defined.


(** X7.  The two single-row lookups, [getMemberProfile] and
    [getNextUpcomingEvent], turn an answer without rows into null, not
    into an error, and an answer with rows into its first row. *)
Theorem single_row_lookups_first_row_or_null :
  forall (be : Backend) (tr : Trace) (r : Response) (userId : string),
    Api.shouldUseDemoMode (env be) = false ->
    (forall q, fulfilledBefore (execute be q) 60000 r) ->
    Supabase.error r = None ->
    (data r = VArray [] \/ data r = VNull ->
     fst (Api.invoke be (Api.GetMemberProfile userId) tr) = Returned VNull
     /\ fst (CmsApi.invoke be CmsApi.GetNextUpcomingEvent tr)
        = Returned VNull)
    /\ (forall row rest,
          data r = VArray (row :: rest) ->
          fst (Api.invoke be (Api.GetMemberProfile userId) tr)
          = Returned (VRow row)
          /\ fst (CmsApi.invoke be CmsApi.GetNextUpcomingEvent tr)
             = Returned (VRow row)).
Proof.
  intros be tr r userId Hdemo Hquick Herror.
  assert (Hcms : CmsApi.shouldUseDemoMode (env be) = false)
    by (rewrite cms_shouldUseDemoMode; exact Hdemo).
  assert (Hapi : fst (Api.invoke be (Api.GetMemberProfile userId) tr)
                 = Returned (firstOrNull (data r))).
  { run_connected Hdemo. settle_query @race_fulfilledBefore Hquick r.
    cbn [await fst]. rewrite Herror. reflexivity. }
  assert (Hnext : fst (CmsApi.invoke be CmsApi.GetNextUpcomingEvent tr)
                  = Returned (firstOrNull (data r))).
  { run_connected Hcms. settle_query @race_fulfilledBefore Hquick r.
    cbn [await fst]. rewrite Herror. reflexivity. }
  rewrite Hapi, Hnext. split.
  - intros [-> | ->]; split; reflexivity.
  - intros row rest ->. split; reflexivity.
Qed.

Lemma single_row_lookups_first_row_or_null_witness :
  fst (Api.invoke twoRowsBackend (Api.GetMemberProfile "u2") [])
  = Returned (VRow (OProfile annProfile))
  /\ fst (Api.invoke quickBackend (Api.GetMemberProfile "u2") [])
     = Returned VNull.
Proof.
  split.
  - apply (proj2 (single_row_lookups_first_row_or_null twoRowsBackend []
                    {| data := VArray [OProfile annProfile;
                                       ORecord (obj [("id", SStr "row-2")])];
                       Supabase.error := None |} "u2" eq_refl
                    ltac:(intros q; simpl; split; [lia|reflexivity]) eq_refl)
             (OProfile annProfile) [ORecord (obj [("id", SStr "row-2")])]
             eq_refl).
  - apply (proj1 (single_row_lookups_first_row_or_null quickBackend []
                    {| data := VArray []; Supabase.error := None |} "u2"
                    eq_refl
                    ltac:(intros q; simpl; split; [lia|reflexivity]) eq_refl)
             (or_introl eq_refl)).
Defined.



(** The network accesses of a call that sends [q], however the database
    then behaves. *)
Ltac sends_exactly H :=
  open_call; rewrite ?H; cbv beta iota; split_cases; cbn [snd];
  network_of_trace; reflexivity.

(** X9.  An empty filter is no filter: [getLodgeDocuments] with an empty
    category and [getPageContent] with an empty page name behave as
    without the argument.  A category that is not empty is added to the
    query as an equality on [category], a page name as an equality on
    [page_name]. *)
Theorem empty_filter_is_no_filter :
  forall (be : Backend) (tr : Trace),
    Api.invoke be (Api.GetLodgeDocuments (Some "")) tr
    = Api.invoke be (Api.GetLodgeDocuments None) tr
    /\ CmsApi.invoke be (CmsApi.GetPageContent (Some "")) tr
       = CmsApi.invoke be (CmsApi.GetPageContent None) tr
    /\ (forall category : string,
          category <> "" ->
          Api.shouldUseDemoMode (env be) = false ->
          network (snd (Api.invoke be (Api.GetLodgeDocuments (Some category))
                          tr))
          = network tr
            ++ [Sent (from "lodge_documents" .> select (Some "*")
                        .> order "created_at" false
                        .> eq "category" (SStr category))]
          /\ network (snd (CmsApi.invoke be
                             (CmsApi.GetPageContent (Some category)) tr))
             = network tr
               ++ [Sent (from "page_content" .> select (Some "*")
                           .> eq "page_name" (SStr category)
                           .> order "page_name" true)]).
Proof.
  intros be tr. split; [reflexivity|]. split; [reflexivity|].
  intros category Hne Hdemo.
  assert (Hcms : CmsApi.shouldUseDemoMode (env be) = false)
    by (rewrite cms_shouldUseDemoMode; exact Hdemo).
  assert (Htruthy : truthy_string (Some category) = true).
  { simpl. destruct (String.eqb_spec category ""); [contradiction|].
    reflexivity. }
  split.
  - autounfold with operations. rewrite Hdemo, Htruthy. sends_exactly Hdemo.
  - autounfold with operations. rewrite Hcms, Htruthy. sends_exactly Hcms.
Qed.

Lemma empty_filter_is_no_filter_witness :
  network (snd (Api.invoke quickBackend (Api.GetLodgeDocuments (Some "minutes"))
                  []))
  = [Sent (from "lodge_documents" .> select (Some "*")
             .> order "created_at" false
             .> eq "category" (SStr "minutes"))].
Proof.
  apply (proj1 (proj2 (proj2 (empty_filter_is_no_filter quickBackend []))
                  "minutes" ltac:(discriminate) eq_refl)).
Defined.

(** X10.  [createNewsArticle] inserts the article as given when it has a
    publish date, and otherwise (the date is missing, or null, empty, zero
    or false) with the current day as publish date; no other column is
    touched. *)
Theorem createNewsArticle_defaults_publish_date :
  forall (be : Backend) (article : gmap string Scalar) (tr : Trace),
    CmsApi.shouldUseDemoMode (env be) = false ->
    exists row : gmap string Scalar,
      network (snd (CmsApi.invoke be (CmsApi.CreateNewsArticle article) tr))
      = network tr
        ++ [Sent (from "news_articles" .> insert row .> select None
                    .> single)]
      /\ (forall column : string,
            column <> "publish_date" -> row !! column = article !! column)
      /\ (forall d : Scalar,
            article !! "publish_date" = Some d -> truthy d = true ->
            row = article)
      /\ (article !! "publish_date" = None
          \/ (exists d : Scalar,
                article !! "publish_date" = Some d /\ truthy d = false) ->
          row !! "publish_date"
          = Some (SStr (split_T_0 (toISOString (clock be))))).
Proof.
  intros be article tr Hdemo.
  exists (<["publish_date" :=
            CmsApi.or_else (article !! "publish_date")
              (SStr (split_T_0 (toISOString (clock be))))]> article).
  split; [|split; [|split]].
  - sends_exactly Hdemo.
  - intros column Hne. apply lookup_insert_ne. congruence.
  - intros d Hd Htruthy. apply insert_id.
    rewrite Hd. unfold CmsApi.or_else. rewrite Htruthy. reflexivity.
  - intros H. rewrite lookup_insert_eq. f_equal.
    destruct H as [-> | (d & -> & Hd)]; [reflexivity|].
    unfold CmsApi.or_else. rewrite Hd. reflexivity.
Qed.

Lemma createNewsArticle_defaults_publish_date_witness :
  exists row : gmap string Scalar,
    network (snd (CmsApi.invoke quickBackend
                    (CmsApi.CreateNewsArticle
                       (obj [("title", SStr "Ladies Night")])) []))
    = [Sent (from "news_articles" .> insert row .> select None .> single)]
    /\ row !! "publish_date" = Some (SStr "2023-11-14")
    /\ row !! "title" = Some (SStr "Ladies Night").
Proof.
  destruct (createNewsArticle_defaults_publish_date quickBackend
              (obj [("title", SStr "Ladies Night")]) [] eq_refl)
    as (row & Hsent & Hother & _ & Hdefault).
  exists row. split; [exact Hsent|]. split.
  - apply Hdefault. left. reflexivity.
  - rewrite Hother by discriminate. reflexivity.
Defined.

(** X11.  Registration cannot grant anything: with a connection,
    [createMemberProfile] inserts, whatever its arguments, a row with role
    "member", status "pending" and an unverified email, for the given user
    and with the name trimmed (of all white space [String.prototype.trim]
    removes, the no-break space included); without a connection the
    profile it makes up is a pending member too. *)
Theorem createMemberProfile_registers_pending_member :
  forall (be : Backend) (userId fullName : string) (tr : Trace),
    (Api.shouldUseDemoMode (env be) = false ->
     exists row : gmap string Scalar,
       network (snd (Api.invoke be (Api.CreateMemberProfile userId fullName)
                       tr))
       = network tr
         ++ [Sent (from "member_profiles" .> insert row .> select None
                     .> single)]
       /\ row !! "role" = Some (SStr "member")
       /\ row !! "status" = Some (SStr "pending")
       /\ row !! "email_verified" = Some (SBool false)
       /\ row !! "user_id" = Some (SStr userId)
       /\ row !! "full_name" = Some (SStr (trim fullName)))
    /\ (Api.shouldUseDemoMode (env be) = true ->
        exists p : MemberProfile,
          fst (Api.invoke be (Api.CreateMemberProfile userId fullName) tr)
          = Returned (VRow (OProfile p))
          /\ role p = member /\ status p = "pending"
          /\ email_verified p = false).
Proof.
  intros be userId fullName tr. split.
  - intros Hdemo. eexists. split; [sends_exactly Hdemo|].
    repeat split; reflexivity.
  - intros Hdemo. eexists. split.
    + autounfold with operations. rewrite Hdemo. reflexivity.
    + repeat split.
Qed.

Lemma createMemberProfile_registers_pending_member_witness :
  exists row : gmap string Scalar,
    network (snd (Api.invoke quickBackend
                    (Api.CreateMemberProfile "u7"
                       (nbsp +:+ "  Bob Hope " +:+ nbsp)) []))
    = [Sent (from "member_profiles" .> insert row .> select None .> single)]
    /\ row !! "role" = Some (SStr "member")
    /\ row !! "status" = Some (SStr "pending")
    /\ row !! "full_name" = Some (SStr "Bob Hope").
Proof.
  destruct (proj1 (createMemberProfile_registers_pending_member quickBackend
                     "u7" (nbsp +:+ "  Bob Hope " +:+ nbsp) []) eq_refl)
    as (row & Hsent & Hrole & Hstatus & _ & _ & Hname).
  exists row. repeat split; assumption.
Defined.

(** X12.  [deleteUserAndProfile] needs a session: without one it throws
    "Not authenticated" and posts no request.  With one, it posts a single
    request to the deletion function under the configured URL, carrying
    the session's token as bearer and the user's id as body. *)
Theorem deleteUserAndProfile_needs_session :
  forall (be : Backend) (userId : string) (tr : Trace) (t : N),
    (getSession be = Some (t, Fulfilled None) ->
     Api.invoke be (Api.DeleteUserAndProfile userId) tr
     = (Thrown (mkError "Not authenticated"),
        tr ++ [AskedSession;
               World.ConsoleError "API Error - deleteUserAndProfile:"
                 "Not authenticated"]))
    /\ (forall (s : Session) (base : string),
          getSession be = Some (t, Fulfilled (Some s)) ->
          VITE_SUPABASE_URL (env be) = Some base ->
          network (snd (Api.invoke be (Api.DeleteUserAndProfile userId) tr))
          = network tr
            ++ [AskedSession;
                Fetched {| url := base +:+ "/functions/v1/delete-user";
                           method := "POST";
                           authorization := "Bearer " +:+ access_token s;
                           content_type := "application/json";
                           body := obj [("user_id", SStr userId)] |}]).
Proof.
  intros be userId tr t. split.
  - intros Hsession. open_call. rewrite Hsession. cbv beta iota.
    rewrite <- app_assoc. reflexivity.
  - intros s base Hsession Hurl. open_call.
    rewrite Hsession, Hurl. cbv beta iota. cbn [default].
    split_cases; cbn [snd]; network_of_trace; rewrite <- ?app_assoc;
      reflexivity.
Qed.

Lemma deleteUserAndProfile_needs_session_witness :
  Api.invoke quickBackend (Api.DeleteUserAndProfile "u2") []
  = (Thrown (mkError "Not authenticated"),
     [AskedSession;
      World.ConsoleError "API Error - deleteUserAndProfile:"
        "Not authenticated"])
  /\ network (snd (Api.invoke rejectingEndpointBackend
                     (Api.DeleteUserAndProfile "u2") []))
     = [AskedSession;
        Fetched {| url := "https://radlett.supabase.co/functions/v1/delete-user";
                   method := "POST";
                   authorization := "Bearer token-2";
                   content_type := "application/json";
                   body := obj [("user_id", SStr "u2")] |}].
Proof.
  split.
  - apply (proj1 (deleteUserAndProfile_needs_session quickBackend "u2" []
                    1%N)).
    reflexivity.
  - apply (proj2 (deleteUserAndProfile_needs_session rejectingEndpointBackend
                    "u2" [] 1%N) annSession "https://radlett.supabase.co");
      reflexivity.
Defined.

(** X13.  When the deletion function answers with a failure status,
    [deleteUserAndProfile] throws the error text of the answer's body, or
    "Failed to delete user" when the body names none (or an empty one);
    when it answers with success, the call returns the body. *)
Theorem deleteUserAndProfile_reports_endpoint_answer :
  forall (be : Backend) (userId : string) (tr : Trace) (t t' : N)
         (s : Session) (response : HttpResponse),
    getSession be = Some (t, Fulfilled (Some s)) ->
    (forall req, fetch be req = Some (t', Fulfilled response)) ->
    (forall (t'' : N) (answer : gmap string Scalar) (text : string),
       ok response = false ->
       json response = Some (t'', Fulfilled (VRow (ORecord answer))) ->
       (answer !! "error" = Some (SStr text) -> text <> "" ->
        fst (Api.invoke be (Api.DeleteUserAndProfile userId) tr)
        = Thrown (mkError text))
       /\ (answer !! "error" = None \/ answer !! "error" = Some (SStr "") ->
           fst (Api.invoke be (Api.DeleteUserAndProfile userId) tr)
           = Thrown (mkError "Failed to delete user")))
    /\ (forall (t'' : N) (v : Value),
          ok response = true ->
          json response = Some (t'', Fulfilled v) ->
          fst (Api.invoke be (Api.DeleteUserAndProfile userId) tr)
          = Returned v).
Proof.
  intros be userId tr t t' s response Hsession Hfetch. split.
  - intros t'' answer text Hok Hjson. split.
    + intros Herror Hne. open_call. rewrite Hsession. cbv beta iota.
      rewrite Hfetch. cbv beta iota. rewrite Hok, Hjson. cbn [negb].
      cbv beta iota. rewrite Herror. cbn [truthy to_string].
      destruct (String.eqb_spec text ""); [contradiction|]. reflexivity.
    + intros Herror. open_call. rewrite Hsession. cbv beta iota.
      rewrite Hfetch. cbv beta iota. rewrite Hok, Hjson. cbn [negb].
      cbv beta iota. destruct Herror as [-> | ->]; reflexivity.
  - intros t'' v Hok Hjson. open_call. rewrite Hsession. cbv beta iota.
    rewrite Hfetch. cbv beta iota. rewrite Hok, Hjson. reflexivity.
Qed.

Lemma deleteUserAndProfile_reports_endpoint_answer_witness :
  fst (Api.invoke rejectingEndpointBackend (Api.DeleteUserAndProfile "u2") [])
  = Thrown (mkError "User not found").
Proof.
  apply (proj1 (proj1 (deleteUserAndProfile_reports_endpoint_answer
                         rejectingEndpointBackend "u2" [] 1%N 40%N annSession
                         {| ok := false;
                            json := Some (41%N,
                                          Fulfilled
                                            (VRow (ORecord
                                                     (obj [("error",
                                                            SStr "User not found")])))) |}
                         eq_refl ltac:(intros req; reflexivity))
                  41%N (obj [("error", SStr "User not found")])
                  "User not found" eq_refl eq_refl)).
  - reflexivity.
  - discriminate.
Defined.

(** X14.  Demo mode is off exactly when both connection parameters are
    present and not empty: an empty URL or key counts as a missing one.
    The two copies of the predicate agree. *)
Theorem demo_mode_off_iff_both_parameters_set :
  forall e : Env,
    (Api.shouldUseDemoMode e = false
     <-> exists u k : string,
           VITE_SUPABASE_URL e = Some u /\ u <> ""
           /\ VITE_SUPABASE_ANON_KEY e = Some k /\ k <> "")
    /\ CmsApi.shouldUseDemoMode e = Api.shouldUseDemoMode e.
Proof.
  intros [url key]. split; [|reflexivity].
  unfold Api.shouldUseDemoMode, truthy_string; simpl. split.
  - intros H. destruct url as [u|], key as [k|]; simpl in H;
      try discriminate H;
      try (rewrite orb_true_r in H; discriminate H).
    destruct (String.eqb_spec u ""), (String.eqb_spec k "");
      simpl in H; try discriminate H.
    exists u, k. auto.
  - intros (u & k & Hu & Hune & Hk & Hkne).
    simpl in Hu, Hk. subst url key. simpl.
    destruct (String.eqb_spec u ""), (String.eqb_spec k "");
      try contradiction. reflexivity.
Qed.

Lemma demo_mode_off_iff_both_parameters_set_witness :
  Api.shouldUseDemoMode connectedEnv = false
  /\ CmsApi.shouldUseDemoMode connectedEnv = false.
Proof.
  assert (H : Api.shouldUseDemoMode connectedEnv = false).
  { apply (proj1 (demo_mode_off_iff_both_parameters_set connectedEnv)).
    exists "https://radlett.supabase.co", "public-anon-key".
    repeat split; discriminate. }
  split; [exact H|].
  rewrite (proj2 (demo_mode_off_iff_both_parameters_set connectedEnv)).
  exact H.
Defined.

(* ===================================================================== *)
(** * Further properties of the session tracker *)
(* ===================================================================== *)

(** Open the part of the component at hand down to the case distinctions
    it makes. *)
Ltac open_tracker :=
  unfold perform, getInitialSession, getInitialSessionWhile,
    onAuthStateChange, onAuthStateChangeWhile, refreshProfile,
    refreshProfileOf, signOut, unmount, loadProfile, loadProfileWhile,
    getMemberProfile, quiet, cleanUp, alloc, record,
    setUser, setProfile, setLoading, setError, with_state;
  unfold try_finally, try_catch, bind, when, await, get, modify, throw, ret;
  cbv beta iota zeta.

(** X15.  Nothing the tracker does on its own can throw: the profile load,
    the refresh, the initial session check and the event callback return
    (or wait) whatever the provider and the profile fetch do.  Only
    [signOut] throws. *)
Theorem tracker_throws_only_from_signOut :
  forall (be : Provider) (w : World) (e : Error),
    (forall u : User, fst (loadProfile be u w) <> Thrown e)
    /\ fst (refreshProfile be w) <> Thrown e
    /\ fst (getInitialSession be w) <> Thrown e
    /\ (forall event session,
          fst (onAuthStateChange be event session w) <> Thrown e).
Proof.
  intros be w e. split; [|split; [|split]].
  - intros u. open_tracker. split_cases; cbn [fst]; discriminate.
  - open_tracker. split_cases; cbn [fst]; discriminate.
  - open_tracker. split_cases; cbn [fst]; discriminate.
  - intros event session. open_tracker. split_cases; cbn [fst]; discriminate.
Qed.

Lemma getInitialSession_answer_after_cleanUp (be : Provider)
    (whileFetch : Meanwhile) (w : World) :
  exists e events,
    snd (getInitialSessionWhile be cleanUp whileFetch w)
    = {| state := {| user := user (state w); profile := profile (state w);
                     loading := loading (state w); error := e |};
         mounted := false; heap := heap w; log := log w ++ events |}.
Proof.
  destruct w as [[wuser wprofile wloading werror] wmounted wheap wlog].
  open_tracker. cbn [mounted state log heap].
  destruct (auth_getSession be) as [[t [[[s|] [e|]]|e]]|];
    cbn [session session_error snd fst mounted state user profile loading
         error heap log];
    rewrite <- ?app_assoc; eexists _, _; reflexivity.
Qed.

Lemma loadProfile_through_cleanUp (be : Provider) (u : User) (w : World) :
  api_getMemberProfile be (uid u) <> None ->
  exists p events,
    loadProfileWhile be cleanUp u w
    = (Returned tt,
       {| state := {| user := user (state w);
                      profile := Some (List.length (heap w));
                      loading := loading (state w); error := None |};
          mounted := false; heap := heap w ++ [p];
          log := log w ++ events |}).
Proof.
  intros Hsettles.
  destruct w as [[wuser wprofile wloading werror] wmounted wheap wlog].
  open_tracker. cbn [state user profile loading error mounted heap log].
  destruct (api_getMemberProfile be (uid u)) as [[t [[p|]|e]]|];
    try congruence;
    cbn [snd fst state user profile loading error mounted heap log];
    rewrite <- ?app_assoc; eexists _, _; reflexivity.
Qed.

(** X16.  What the [mounted] flag guards.  An event delivered after the
    clean-up changes nothing.  An initial session check whose session
    lookup answers after the clean-up stores no identity, loads no profile
    and leaves the loading flag alone.  But a clean-up that comes while
    the profile fetch is pending does not stop the load: in the initial
    session check and in the callback of a sign-in alike, the profile is
    stored all the same ([loadProfile] does not look at the flag); only the
    loading flag of the initial check is then left as it was. *)
Theorem mounted_flag_guards_events_not_a_pending_load :
  forall (be : Provider) (w : World),
    (forall event session,
       onAuthStateChange be event session (cleanUp w)
       = (Returned tt, cleanUp w))
    /\ (forall whileFetch : Meanwhile,
          let w' := snd (getInitialSessionWhile be cleanUp whileFetch w) in
          user (state w') = user (state w)
          /\ profile (state w') = profile (state w)
          /\ loading (state w') = loading (state w)
          /\ heap w' = heap w)
    /\ (forall (s : Session) (t : N),
          mounted w = true ->
          auth_getSession be
          = Some (t, Fulfilled {| session := Some s;
                                  session_error := None |}) ->
          api_getMemberProfile be (uid (Types.user s)) <> None ->
          let w' := snd (getInitialSessionWhile be quiet cleanUp w) in
          mounted w' = false
          /\ user (state w') = Some (Types.user s)
          /\ is_Some (currentProfile w')
          /\ loading (state w') = loading (state w))
    /\ (forall s : Session,
          mounted w = true ->
          api_getMemberProfile be (uid (Types.user s)) <> None ->
          let w' := snd (onAuthStateChangeWhile be cleanUp SIGNED_IN (Some s)
                           w) in
          mounted w' = false
          /\ user (state w') = Some (Types.user s)
          /\ is_Some (currentProfile w')).
Proof.
  intros be w. split; [|split; [|split]].
  - intros event session. reflexivity.
  - intros whileFetch.
    destruct (getInitialSession_answer_after_cleanUp be whileFetch w)
      as (e & events & Hw').
    cbv zeta. rewrite Hw'. repeat split.
  - intros s t Hmounted Hsession Hsettles.
    unfold getInitialSessionWhile, try_finally, try_catch, bind, get, await.
    simpl. rewrite Hsession. simpl. rewrite Hmounted. simpl.
    match goal with
    | |- context [loadProfileWhile be cleanUp (Types.user s) ?w1] =>
        destruct (loadProfile_through_cleanUp be (Types.user s) w1 Hsettles)
          as (p & events & ->)
    end.
    simpl. repeat split.
    exists p. unfold currentProfile; simpl.
    apply list_lookup_middle; reflexivity.
  - intros s Hmounted Hsettles.
    unfold onAuthStateChangeWhile, bind, get, try_catch.
    rewrite Hmounted. simpl.
    match goal with
    | |- context [loadProfileWhile be cleanUp (Types.user s) ?w1] =>
        destruct (loadProfile_through_cleanUp be (Types.user s) w1 Hsettles)
          as (p & events & ->)
    end.
    simpl. repeat split.
    exists p. unfold currentProfile; simpl.
    apply list_lookup_middle; reflexivity.
Qed.

Lemma mounted_flag_guards_events_not_a_pending_load_witness :
  mounted initial = true
  /\ mounted (snd (getInitialSessionWhile annProvider quiet cleanUp initial))
     = false
  /\ is_Some (currentProfile
                (snd (getInitialSessionWhile annProvider quiet cleanUp
                        initial)))
  /\ loading (state (snd (getInitialSessionWhile annProvider quiet cleanUp
                            initial))) = true.
Proof.
  destruct (proj1 (proj2 (proj2 (mounted_flag_guards_events_not_a_pending_load
                                   annProvider initial)))
              annSession 5%N eq_refl eq_refl ltac:(discriminate))
    as (Hmounted & _ & Hprofile & Hloading).
  split; [reflexivity|]. split; [exact Hmounted|].
  split; [exact Hprofile|exact Hloading].
Defined.

(** X17.  A mounted tracker passes over the events it does not tell apart,
    and over a sign-in or a token refresh without session: they clear the
    last error and change nothing else, and nothing is asked of the
    outside. *)
Theorem passed_over_events_only_clear_error :
  forall (be : Provider) (event : AuthChangeEvent) (session : option Session)
         (w : World),
    mounted w = true ->
    passedOver event session = true ->
    let r := onAuthStateChange be event session w in
    fst r = Returned tt
    /\ error (state (snd r)) = None
    /\ user (state (snd r)) = user (state w)
    /\ profile (state (snd r)) = profile (state w)
    /\ loading (state (snd r)) = loading (state w)
    /\ heap (snd r) = heap w
    /\ log (snd r) = log w.
Proof.
  intros be event session w Hmounted Hpassed.
  unfold onAuthStateChange, onAuthStateChangeWhile, bind, get, try_catch. rewrite Hmounted.
  destruct event, session; try discriminate Hpassed; repeat split.
Qed.

Lemma passed_over_events_only_clear_error_witness :
  mounted (signedInWorld annUser annProfile) = true
  /\ passedOver SIGNED_IN None = true
  /\ user (state (snd (onAuthStateChange noProfileProvider SIGNED_IN None
                         (signedInWorld annUser annProfile))))
     = Some annUser
  /\ log (snd (onAuthStateChange noProfileProvider SIGNED_IN None
                 (signedInWorld annUser annProfile))) = [].
Proof.
  destruct (passed_over_events_only_clear_error noProfileProvider SIGNED_IN
              None (signedInWorld annUser annProfile) eq_refl eq_refl)
    as (_ & _ & Huser & _ & _ & _ & Hlog).
  repeat split; assumption.
Defined.

(** X18.  When the real profile is found, it is the one stored: the load
    makes up no placeholder, logs no warning, and the derived flags are
    those of the real profile. *)
Theorem real_profile_stored_when_found :
  forall (be : Provider) (u : User) (w : World) (t : N) (p : MemberProfile),
    api_getMemberProfile be (uid u) = Some (t, Fulfilled (Some p)) ->
    let w' := snd (loadProfile be u w) in
    fst (loadProfile be u w) = Returned tt
    /\ currentProfile w' = Some p
    /\ heap w' = heap w ++ [p]
    /\ log w' = log w ++ [CalledGetMemberProfile (uid u)]
    /\ isAdmin w' = match role p with admin => true | member => false end
    /\ needsPasswordReset w'
       = match needs_password_reset p with Some true => true | _ => false end.
Proof.
  intros be u w t p Hfound.
  rewrite (loadProfile_real be u w t p Hfound). cbn [fst snd].
  unfold isAdmin, needsPasswordReset.
  rewrite currentProfile_stored. repeat split.
Qed.

Lemma real_profile_stored_when_found_witness :
  currentProfile (snd (loadProfile annProvider annUser initial))
  = Some annProfile
  /\ isAdmin (snd (loadProfile annProvider annUser initial)) = false.
Proof.
  destruct (real_profile_stored_when_found annProvider annUser initial 8%N
              annProfile eq_refl)
    as (_ & Hprofile & _ & _ & Hadmin & _).
  split; [exact Hprofile|exact Hadmin].
Defined.

(** X19.  The derived flags follow the stored profile: no profile, no
    administrator and no password reset; with the placeholder, the tracker
    is an administrator exactly for the demo address and never needs a
    password reset. *)
Theorem derived_flags_follow_stored_profile :
  forall (be : Provider) (u : User) (w : World),
    (profile (state w) = None ->
     isAdmin w = false /\ needsPasswordReset w = false)
    /\ (noRealProfile be u ->
        (isAdmin (snd (loadProfile be u w)) = true
         <-> email u = Some "demo@radlettlodge.org")
        /\ needsPasswordReset (snd (loadProfile be u w)) = false).
Proof.
  intros be u w. split.
  - intros Hnone. unfold isAdmin, needsPasswordReset, currentProfile.
    rewrite Hnone. split; reflexivity.
  - intros Hnoreal.
    destruct (loadProfile_placeholder be u w Hnoreal) as [events ->].
    cbn [snd]. unfold isAdmin, needsPasswordReset.
    rewrite currentProfile_stored. split; [|reflexivity].
    rewrite <- strict_eq_true. cbn [createDemoProfile role].
    destruct (strict_eq (email u) "demo@radlettlodge.org");
      split; congruence.
Qed.

Lemma derived_flags_follow_stored_profile_witness :
  noRealProfile failingProvider demoUser
  /\ isAdmin (snd (loadProfile failingProvider demoUser initial)) = true
  /\ needsPasswordReset (snd (loadProfile failingProvider demoUser initial))
     = false.
Proof.
  assert (Hnone : noRealProfile failingProvider demoUser) by exact I.
  split; [exact Hnone|].
  destruct (proj2 (derived_flags_follow_stored_profile failingProvider
                     demoUser initial) Hnone) as [Hadmin Hreset].
  split; [apply Hadmin; reflexivity|exact Hreset].
Defined.

(** X20.  A [refreshProfile] keeps the identity of the render that made
    it.  Made by a render without identity, it does nothing at all, and so
    does the one of the latest render after a successful sign-out.  Made
    while an identity was held and called after a successful sign-out, it
    still fetches that identity's profile and stores a profile, although
    the tracker holds no identity any more. *)
Theorem refreshProfile_keeps_identity_of_its_render :
  forall (be : Provider) (w : World),
    refreshProfileOf be None w = (Returned tt, w)
    /\ (forall t : N,
          auth_signOut be = Some (t, Fulfilled None) ->
          refreshProfile be (snd (signOut be w))
          = (Returned tt, snd (signOut be w)))
    /\ (forall (u : User) (t : N),
          auth_signOut be = Some (t, Fulfilled None) ->
          api_getMemberProfile be (uid u) <> None ->
          let w' := snd (refreshProfileOf be (Some u) (snd (signOut be w))) in
          user (state w') = None
          /\ is_Some (currentProfile w')
          /\ (log w'
              = log w ++ [CalledSignOut; CalledGetMemberProfile (uid u)]
              \/ exists warning,
                   log w'
                   = log w ++ [CalledSignOut; CalledGetMemberProfile (uid u);
                               warning])).
Proof.
  intros be w. split; [reflexivity|]. split.
  - intros t Hout. rewrite (signOut_succeeded be w t Hout). reflexivity.
  - intros u t Hout Hsettles.
    rewrite (signOut_succeeded be w t Hout). cbn [snd refreshProfileOf].
    cbv zeta.
    destruct (api_getMemberProfile be (uid u)) as [[t' [[p|]|e]]|] eqn:E;
      try congruence.
    + rewrite (loadProfile_real be u _ t' p E). cbn [snd].
      split; [reflexivity|]. split; [eexists; apply currentProfile_stored|].
      left. unfold stored. cbn [log]. rewrite <- app_assoc. reflexivity.
    + rewrite (loadProfile_null be u _ t' E). cbn [snd].
      split; [reflexivity|]. split; [eexists; apply currentProfile_stored|].
      left. unfold stored. cbn [log]. rewrite <- app_assoc. reflexivity.
    + rewrite (loadProfile_failed be u _ t' e E). cbn [snd].
      split; [reflexivity|]. split; [eexists; apply currentProfile_stored|].
      right. eexists. unfold stored. cbn [log]. rewrite <- app_assoc.
      reflexivity.
Qed.

Lemma refreshProfile_keeps_identity_of_its_render_witness :
  user (state (snd (refreshProfileOf annProvider (Some annUser)
                      (snd (signOut annProvider
                              (signedInWorld annUser annProfile)))))) = None
  /\ is_Some (currentProfile
                (snd (refreshProfileOf annProvider (Some annUser)
                        (snd (signOut annProvider
                                (signedInWorld annUser annProfile)))))).
Proof.
  destruct (proj2 (proj2 (refreshProfile_keeps_identity_of_its_render
                            annProvider (signedInWorld annUser annProfile)))
              annUser 5%N eq_refl ltac:(discriminate))
    as (Huser & Hprofile & _).
  split; [exact Huser|exact Hprofile].
Defined.

Lemma loadProfile_frame (be : Provider) (u : User) (w : World) :
  exists stored_profile new_objects events,
    snd (loadProfile be u w)
    = {| state := {| user := user (state w); profile := stored_profile;
                     loading := loading (state w); error := None |};
         mounted := mounted w;
         heap := heap w ++ new_objects;
         log := log w ++ events |}.
Proof.
  destruct w as [[wuser wprofile wloading werror] wmounted wheap wlog].
  open_tracker. cbn [state user profile loading error mounted heap log].
  destruct (api_getMemberProfile be (uid u)) as [[t [[p|]|e]]|];
    cbn [snd fst state user profile loading error mounted heap log];
    rewrite <- ?app_assoc.
  - eexists _, [_], _. reflexivity.
  - eexists _, [_], _. reflexivity.
  - eexists _, [_], _. reflexivity.
  - eexists _, [], _. rewrite app_nil_r. reflexivity.
Qed.

(** X21.  A profile load touches the profile and the error only: however
    the fetch ends, and also while it is still waiting, the load clears the
    last error, leaves the identity and the loading flag as they were, and
    keeps every profile object there was. *)
Theorem profile_load_keeps_identity_and_objects :
  forall (be : Provider) (u : User) (w : World),
    let w' := snd (loadProfile be u w) in
    error (state w') = None
    /\ user (state w') = user (state w)
    /\ loading (state w') = loading (state w)
    /\ mounted w' = mounted w
    /\ heap w `prefix_of` heap w'
    /\ log w `prefix_of` log w'.
Proof.
  intros be u w.
  destruct (loadProfile_frame be u w) as (sp & objs & events & Hw').
  cbv zeta. rewrite Hw'. cbn [state error user loading mounted heap log].
  repeat split; eexists; reflexivity.
Qed.

Lemma getInitialSession_completes (be : Provider) (w : World) :
  mounted w = true ->
  auth_getSession be <> None ->
  (forall userId, api_getMemberProfile be userId <> None) ->
  exists w',
    getInitialSession be w = (Returned tt, w')
    /\ loading (state w') = false.
Proof.
  destruct w as [[wuser wprofile wloading werror] wmounted wheap wlog].
  cbn [mounted]. intros -> Hsession Hfetch.
  open_tracker. cbn [mounted state].
  destruct (auth_getSession be) as [[t [[[s|] [e|]]|e]]|];
    try congruence; cbn [session session_error];
    try (eexists; split; reflexivity).
  pose proof (Hfetch (uid (Types.user s))) as Hs.
  destruct (api_getMemberProfile be (uid (Types.user s)))
    as [[t' [[p|]|e]]|]; try congruence;
    eexists; split; reflexivity.
Qed.

(** X22.  The initial session check of a mounted tracker always ends the
    loading state, provided the provider and the profile fetch settle:
    whether a session was found or not, and whether the provider answered,
    answered with an error or failed, the check returns with the loading
    flag off. *)
Theorem initial_session_check_ends_loading :
  forall (be : Provider) (w : World),
    mounted w = true ->
    auth_getSession be <> None ->
    (forall userId, api_getMemberProfile be userId <> None) ->
    fst (getInitialSession be w) = Returned tt
    /\ loading (state (snd (getInitialSession be w))) = false.
Proof.
  intros be w Hmounted Hsession Hfetch.
  destruct (getInitialSession_completes be w Hmounted Hsession Hfetch)
    as (w' & -> & Hloading).
  split; [reflexivity|exact Hloading].
Qed.

Lemma initial_session_check_ends_loading_witness :
  mounted initial = true
  /\ loading (state initial) = true
  /\ loading (state (snd (getInitialSession brokenSessionProvider initial)))
     = false.
Proof.
  split; [reflexivity|]. split; [reflexivity|].
  apply (initial_session_check_ends_loading brokenSessionProvider initial
           eq_refl); [discriminate|].
  intros userId; discriminate.
Defined.

Lemma getInitialSession_without_session (be : Provider) (w : World) (t : N) :
  (forall (s : option Session) (e : Error),
     auth_getSession be
     = Some (t, Fulfilled {| session := s; session_error := Some e |}) ->
     exists w',
       getInitialSession be w = (Returned tt, w')
       /\ error (state w') = Some "Authentication error"
       /\ user (state w') = user (state w)
       /\ profile (state w') = profile (state w)
       /\ heap w' = heap w)
  /\ (forall e : Error,
        auth_getSession be = Some (t, Rejected e) ->
        exists w',
          getInitialSession be w = (Returned tt, w')
          /\ error (state w') = Some "Failed to authenticate"
          /\ user (state w') = user (state w)
          /\ profile (state w') = profile (state w)
          /\ heap w' = heap w)
  /\ (auth_getSession be
      = Some (t, Fulfilled {| session := None; session_error := None |}) ->
      exists w',
        getInitialSession be w = (Returned tt, w')
        /\ error (state w') = error (state w)
        /\ user (state w') = user (state w)
        /\ profile (state w') = profile (state w)
        /\ heap w' = heap w).
Proof.
  destruct w as [[wuser wprofile wloading werror] wmounted wheap wlog].
  split; [|split].
  - intros s e H. open_tracker. rewrite H.
    cbn [session session_error mounted]. destruct wmounted;
      eexists; repeat split.
  - intros e H. open_tracker. rewrite H. cbn [mounted].
    destruct wmounted; eexists; repeat split.
  - intros H. open_tracker. rewrite H.
    cbn [session session_error mounted]. destruct wmounted;
      eexists; repeat split.
Qed.

(** X23.  An initial session check that finds no identity stores none: an
    answer with an error (even one that came with a session) sets the
    error "Authentication error", a failure of the call sets "Failed to
    authenticate", an answer without session leaves the error as it was;
    in all three cases identity, profile and profile objects are
    untouched. *)
Theorem initial_session_check_without_identity :
  forall (be : Provider) (w : World) (t : N),
    (forall (s : option Session) (e : Error),
       auth_getSession be
       = Some (t, Fulfilled {| session := s; session_error := Some e |}) ->
       error (state (snd (getInitialSession be w)))
       = Some "Authentication error"
       /\ user (state (snd (getInitialSession be w))) = user (state w)
       /\ profile (state (snd (getInitialSession be w))) = profile (state w)
       /\ heap (snd (getInitialSession be w)) = heap w)
    /\ (forall e : Error,
          auth_getSession be = Some (t, Rejected e) ->
          error (state (snd (getInitialSession be w)))
          = Some "Failed to authenticate"
          /\ user (state (snd (getInitialSession be w))) = user (state w)
          /\ profile (state (snd (getInitialSession be w)))
             = profile (state w)
          /\ heap (snd (getInitialSession be w)) = heap w)
    /\ (auth_getSession be
        = Some (t, Fulfilled {| session := None; session_error := None |}) ->
        error (state (snd (getInitialSession be w))) = error (state w)
        /\ user (state (snd (getInitialSession be w))) = user (state w)
        /\ profile (state (snd (getInitialSession be w)))
           = profile (state w)
        /\ heap (snd (getInitialSession be w)) = heap w).
Proof.
  intros be w t.
  destruct (getInitialSession_without_session be w t) as (Herr & Hrej & Hno).
  split; [|split].
  - intros s e H. destruct (Herr s e H) as (w' & -> & Hrest). exact Hrest.
  - intros e H. destruct (Hrej e H) as (w' & -> & Hrest). exact Hrest.
  - intros H. destruct (Hno H) as (w' & -> & Hrest). exact Hrest.
Qed.

Lemma initial_session_check_without_identity_witness :
  error (state (snd (getInitialSession brokenSessionProvider initial)))
  = Some "Authentication error"
  /\ user (state (snd (getInitialSession brokenSessionProvider initial)))
     = None.
Proof.
  destruct (proj1 (initial_session_check_without_identity
                     brokenSessionProvider initial 5%N)
              (Some annSession) (mkError "invalid refresh token") eq_refl)
    as (Herror & Huser & _).
  split; [exact Herror|exact Huser].
Defined.










